(** * RigMonitor: the synthetic sensor generator and its status bands

    A shallow embedding of [generate_sensor_data] and of the "current value"
    reduction of the [update_*_bar_chart] callbacks of [main.py].

    Conventions of the model.
    - Instants ([datetime], pandas [Timestamp]) are integers counting
      microseconds, the resolution of [datetime.datetime.now()]; pandas keeps
      the same instants in nanoseconds, a uniform factor of 1000.
      [generate_sensor_data] is the body of the function over unbounded
      integers; [generate_sensor_data_ranged] puts before it the range
      checks of [datetime] and pandas, which raise when an instant or the
      stride leaves their finite calendars.
    - A float is the rational it denotes: the binary64 rounding of a product
      or a sum is not computed.  Statements relate a value to its own status
      and range, or to its draw up to a tolerance, never by an equation on
      rounded values.
    - The wall clock and the two random generators (numpy's global generator
      and Python's [random] module) are components of an explicit [World]
      threaded through every call. *)

From Stdlib Require Import ZArith QArith String Ascii.
From Stdlib Require Import DecimalString DecimalPos DecimalZ.
From Stdlib Require Import List Permutation Sorted Bool Lia Lqa.
Import ListNotations.

Local Open Scope string_scope.
Local Open Scope list_scope.
Local Open Scope Z_scope.

(** ** Exceptions and results *)

Inductive exn : Type :=
| ValueError (msg : string)
| UnboundLocalError (name : string)
| NameError (name : string)
| ZeroDivisionError
| OverflowError (msg : string).

Inductive result (A : Type) : Type :=
| Ok (a : A)
| Err (e : exn).

Arguments Ok {A} a.
Arguments Err {A} e.

(** ** The world: wall clock and random generators *)

Record World : Type := mkWorld {
  clock : nat -> Z;      (* successive readings of the wall clock *)
  ticks : nat;           (* how many readings were taken *)
  np_stream : nat -> Z;  (* raw outputs of numpy's global generator *)
  np_pos : nat;
  py_stream : nat -> Z;  (* raw outputs of Python's random module *)
  py_pos : nat
}.

(** State and error monad: a computation either raises, or returns a value
    and the next world. *)
Definition M (A : Type) : Type := World -> result (A * World).

Definition ret {A} (a : A) : M A := fun w => Ok (a, w).

Definition bind {A B} (m : M A) (k : A -> M B) : M B :=
  fun w => match m w with
           | Ok (a, w') => k a w'
           | Err e => Err e
           end.

Definition raise {A} (e : exn) : M A := fun _ => Err e.

Definition lift {A} (r : result A) : M A :=
  fun w => match r with Ok a => Ok (a, w) | Err e => Err e end.

Notation "x <- m ;; k" := (bind m (fun x => k))
  (at level 61, m at next level, right associativity).

Fixpoint mapM {A B} (f : A -> M B) (l : list A) : M (list B) :=
  match l with
  | [] => ret []
  | a :: l' => b <- f a ;; bs <- mapM f l' ;; ret (b :: bs)
  end.

(** A Python local variable that may not be bound yet, and a global name
    that is looked up in a module where it is not defined. *)
Definition load_local {A} (name : string) (v : option A) : M A :=
  match v with
  | Some a => ret a
  | None => raise (UnboundLocalError name)
  end.

Definition load_global (A : Type) (name : string) : M A :=
  raise (NameError name).

(** ** Time *)

(** [datetime.datetime.now()] *)
Definition datetime_now : M Z :=
  fun w => Ok (clock w (ticks w),
               mkWorld (clock w) (S (ticks w)) (np_stream w) (np_pos w)
                       (py_stream w) (py_pos w)).

(** [datetime.timedelta(hours=h)] and the offset of the frequency string
    [f'{m}min']. *)
Definition timedelta_hours (h : Z) : Z := h * 3600000000.
Definition minutes (m : Z) : Z := m * 60000000.

(** [np.arange(b, e, stride)]: [ceil((e - b) / stride)] points from [b]. *)
Definition np_arange (b e stride : Z) : list Z :=
  map (fun k => b + Z.of_nat k * stride)
      (seq 0 (Z.to_nat (- ((b - e) / stride)))).

(** [pd.date_range(start, end, freq=f'{interval_minutes}min')].  For a fixed
    frequency pandas computes the exclusive bound
    [b + (end - b) // stride * stride + stride // 2 + 1] and hands it to
    [np.arange]; a zero stride fails in the division. *)
Definition pd_date_range (start end_ interval_minutes : Z) : result (list Z) :=
  let stride := minutes interval_minutes in
  if stride =? 0 then Err ZeroDivisionError
  else
    let e := start + (end_ - start) / stride * stride + stride / 2 + 1 in
    Ok (np_arange start e stride).

(** ** Random draws *)

(** Both generators build a float of [0, 1) from 53 random bits. *)
Definition unit_sample (k : Z) : Q := Qmake (k mod 2 ^ 53) (2 ^ 53)%positive.

Definition np_advance (n : nat) (w : World) : World :=
  mkWorld (clock w) (ticks w) (np_stream w) (np_pos w + n)%nat
          (py_stream w) (py_pos w).

Definition np_draws (n : nat) (w : World) : list Z :=
  map (fun k => np_stream w (np_pos w + k)%nat) (seq 0 n).

(** [np.random.uniform(low, high, n)]: [low + (high - low) * random_sample()]
    for each of the [n] cells. *)
Definition np_random_uniform (low high : Q) (n : nat) : M (list Q) :=
  fun w => Ok (map (fun k => low + (high - low) * unit_sample k)%Q
                   (np_draws n w),
               np_advance n w).

(** [np.random.choice(a, n)]: [n] independent indices below [len(a)]. *)
Definition np_random_choice (a : list string) (n : nat) : M (list string) :=
  fun w =>
    match a with
    | [] => match n with
            | O => Ok ([], w)
            | S _ => Err (ValueError "a cannot be empty unless no samples are taken")
            end
    | d :: _ =>
        Ok (map (fun k => nth (Z.to_nat (k mod Z.of_nat (length a))) a d)
                (np_draws n w),
            np_advance n w)
    end.

(** [random.uniform(a, b)]: [a + (b - a) * random()]. *)
Definition random_uniform (a b : Q) : M Q :=
  fun w => Ok ((a + (b - a) * unit_sample (py_stream w (py_pos w)))%Q,
               mkWorld (clock w) (ticks w) (np_stream w) (np_pos w)
                       (py_stream w) (S (py_pos w))).

(** ** Element-wise numpy operations *)

Definition Qltb (x y : Q) : bool := negb (Qle_bool y x).

(** [values < c], [c < values], [values <= c], [c <= values] *)
Definition np_lt (values : list Q) (c : Q) : list bool :=
  map (fun v => Qltb v c) values.
Definition np_gt (c : Q) (values : list Q) : list bool :=
  map (fun v => Qltb c v) values.
Definition np_le (values : list Q) (c : Q) : list bool :=
  map (fun v => Qle_bool v c) values.
Definition np_ge (c : Q) (values : list Q) : list bool :=
  map (fun v => Qle_bool c v) values.

(** [x & y] on boolean arrays *)
Fixpoint np_and (x y : list bool) : list bool :=
  match x, y with
  | a :: x', b :: y' => (a && b)%bool :: np_and x' y'
  | _, _ => []
  end.

(** The third operand of [np.where] is a scalar, broadcast to every cell, or
    an array. *)
Inductive operand (A : Type) : Type :=
| Scalar (a : A)
| Array (l : list A).

Arguments Scalar {A} a.
Arguments Array {A} l.

(** [np.where(cond, x, y)] with a scalar [x].  In this program an array [y]
    always has the shape of [cond]; where it would not, the result stops at
    the shorter operand. *)
Fixpoint np_where {A} (cond : list bool) (x : A) (y : operand A) : list A :=
  match cond with
  | [] => []
  | c :: cond' =>
      match y with
      | Scalar b => (if c then x else b) :: np_where cond' x y
      | Array [] => []
      | Array (b :: y') => (if c then x else b) :: np_where cond' x (Array y')
      end
  end.

(** ** Frames *)

(** The columns of the frames this program builds.  [Type] is present for
    corrosion only. *)
Record DataFrame : Type := mkDataFrame {
  Time : list Z;
  Sensor_ID : list (option Z);
  Value : list Q;
  Status : list string;
  Type_ : option (list string)
}.

(** [pd.DataFrame({...})]: all the columns must have one length. *)
Definition pd_DataFrame (time : list Z) (sensor : list (option Z))
    (value : list Q) (status : list string) (type_ : option (list string))
  : result DataFrame :=
  let n := length time in
  if ((length sensor =? n)%nat && (length value =? n)%nat
      && (length status =? n)%nat
      && match type_ with Some l => (length l =? n)%nat | None => true end)%bool
  then Ok (mkDataFrame time sensor value status type_)
  else Err (ValueError "All arrays must be of the same length").

Definition columns (df : DataFrame) : list string :=
  ["Time"; "Sensor ID"; "Value"; "Status"]
  ++ match Type_ df with Some _ => ["Type"] | None => [] end.

(** One row of a frame. *)
Record Reading : Type := mkReading {
  r_time : Z;
  r_sensor : option Z;
  r_value : Q;
  r_status : string;
  r_type : option string
}.

(** [df.iloc[i]] *)
Definition iloc (df : DataFrame) (i : nat) : option Reading :=
  match nth_error (Time df) i, nth_error (Sensor_ID df) i,
        nth_error (Value df) i, nth_error (Status df) i with
  | Some t, Some s, Some v, Some st =>
      match Type_ df with
      | None => Some (mkReading t s v st None)
      | Some tys =>
          match nth_error tys i with
          | Some ty => Some (mkReading t s v st (Some ty))
          | None => None
          end
      end
  | _, _, _, _ => None
  end.

Definition opt_list {A} (o : option A) : list A :=
  match o with Some a => [a] | None => [] end.

(** The rows of a frame, in index order. *)
Definition rows (df : DataFrame) : list Reading :=
  flat_map (fun i => opt_list (iloc df i)) (seq 0 (length (Time df))).

(** ** The generator *)

(** The status expressions of the four vectorised branches (source lines 46,
    58, 68 and 81) and of the flow-rate branch (line 91). *)
Definition corrosion_status (values : list Q) : list string :=
  np_where (np_lt values 0.1) "Good"
    (Array (np_where (np_lt values 0.4) "Concern" (Scalar "Malfunction"))).

Definition pressure_status (values : list Q) : list string :=
  np_where (np_lt values 80) "Good"
    (Array (np_where (np_lt values 95) "Concern" (Scalar "Malfunction"))).

Definition temperature_status (values : list Q) : list string :=
  np_where (np_and (np_gt (-20) values) (np_lt values 120)) "Good"
    (Array (np_where (np_and (np_gt (-40) values) (np_lt values 140))
              "Concern" (Scalar "Malfunction"))).

Definition acoustic_status (values : list Q) : list string :=
  let '(good_min, good_max) := (60%Q, 90%Q) in
  let '(concern_min, concern_max) := (50%Q, 100%Q) in
  np_where (np_and (np_ge good_min values) (np_le values good_max)) "Good"
    (Array (np_where (np_and (np_ge concern_min values)
                             (np_le values concern_max))
              "Concern" (Scalar "Malfunction"))).

Definition flow_rate_status (value : Q) : string :=
  if (Qltb 100 value && Qltb value 900)%bool then "Good"
  else if (Qltb 50 value && Qltb value 950)%bool then "Concern"
  else "Malfunction".

Definition corrosion_mechanisms : list string :=
  ["Uniform"; "Pitting"; "Galvanic"; "Crevice"].

(** [generate_sensor_data(sensor_type, hours, interval_minutes, sensor_id)].
    The local [sensor_data] is bound by the four vectorised branches only: the
    flow-rate branch reads it (to call [append]) before anything bound it, and
    a [sensor_type] that matches no branch reaches the [return] with the local
    still unbound. *)
Definition generate_sensor_data (sensor_type : string) (hours interval_minutes : Z)
    (sensor_id : option Z) : M DataFrame :=
  now <- datetime_now ;;
  time_range <- lift (pd_date_range (now - timedelta_hours hours) now
                                    interval_minutes) ;;
  let n := length time_range in
  sensor_data <-
    (if sensor_type =? "corrosion" then
       values <- np_random_uniform 0 1 n ;;
       let status := corrosion_status values in
       corrosion_types <- np_random_choice corrosion_mechanisms n ;;
       df <- lift (pd_DataFrame time_range (repeat sensor_id n) values status
                                (Some corrosion_types)) ;;
       ret (Some df)
     else if sensor_type =? "pressure" then
       values <- np_random_uniform 0 100 n ;;
       let status := pressure_status values in
       df <- lift (pd_DataFrame time_range (repeat sensor_id n) values status
                                None) ;;
       ret (Some df)
     else if sensor_type =? "temperature" then
       values <- np_random_uniform (-50) 150 n ;;
       let status := temperature_status values in
       df <- lift (pd_DataFrame time_range (repeat sensor_id n) values status
                                None) ;;
       ret (Some df)
     else if sensor_type =? "acoustic" then
       let '(min_value, max_value) := (40%Q, 120%Q) in
       values <- np_random_uniform min_value max_value n ;;
       let status := acoustic_status values in
       df <- lift (pd_DataFrame time_range (repeat sensor_id n) values status
                                None) ;;
       ret (Some df)
     else if sensor_type =? "flow_rate" then
       value <- random_uniform 0 1000 ;;
       let status := flow_rate_status value in
       df <- load_local "sensor_data" (@None DataFrame) ;;
       t <- load_global Z "t" ;;
       ret (Some df)
     else ret None)%string ;;
  load_local "sensor_data" sensor_data.

(** ** The calendars of the libraries

    Lines 41 and 42 run in [datetime] and pandas.  A [timedelta] holds at
    most 999999999 days; a [datetime] is a date of the years 1 to 9999;
    pandas keeps an instant and the stride of a frequency as int64
    nanoseconds.  Each of them raises when its bound is passed, before any
    branch of the function runs. *)

Definition timedelta_max_days : Z := 999999999.
(* 0001-01-01 00:00:00 and 9999-12-31 23:59:59.999999 *)
Definition datetime_min : Z := -62135596800000000.
Definition datetime_max : Z := 253402300799999999.
Definition int64_max : Z := 9223372036854775807.

(** [datetime.timedelta(hours=hours)] *)
Definition timedelta_error (hours : Z) : option exn :=
  if timedelta_max_days <? Z.abs (hours / 24)
  then Some (OverflowError "days; must have magnitude <= 999999999")
  else None.

(** [now - delta] *)
Definition datetime_error (instant : Z) : option exn :=
  if ((instant <? datetime_min) || (datetime_max <? instant))%bool
  then Some (OverflowError "date value out of range")
  else None.

(** The frequency [f'{interval_minutes}min'] as a stride of nanoseconds. *)
Definition stride_error (interval_minutes : Z) : option exn :=
  if int64_max <? Z.abs (minutes interval_minutes * 1000)
  then Some (ValueError "Out of bounds nanosecond timedelta")
  else None.

(** An end of the range as a [Timestamp] of nanoseconds. *)
Definition timestamp_error (instant : Z) : option exn :=
  if int64_max <? Z.abs (instant * 1000)
  then Some (ValueError "Out of bounds nanosecond timestamp")
  else None.

Fixpoint first_error (checks : list (option exn)) : option exn :=
  match checks with
  | [] => None
  | Some e :: _ => Some e
  | None :: rest => first_error rest
  end.

(** What lines 41 and 42 raise for a clock reading, a window and an
    interval, in the order the checks run. *)
Definition window_error (now hours interval_minutes : Z) : option exn :=
  first_error
    [timedelta_error hours;
     datetime_error (now - timedelta_hours hours);
     stride_error interval_minutes;
     timestamp_error (now - timedelta_hours hours);
     timestamp_error now].

(** [generate_sensor_data] with these checks: the call raises where a
    library does, and else runs the body. *)
Definition generate_sensor_data_ranged (sensor_type : string)
    (hours interval_minutes : Z) (sensor_id : option Z) : M DataFrame :=
  fun w =>
    match window_error (clock w (ticks w)) hours interval_minutes with
    | Some e => Err e
    | None =>
        generate_sensor_data sensor_type hours interval_minutes sensor_id w
    end.

(** The clock readings of the years 2000 to 2200. *)
Definition year_2000 : Z := 946684800000000.
Definition year_2200 : Z := 7258118400000000.

(** ** Categories *)

Inductive Category : Type :=
| Corrosion | Pressure | Temperature | Acoustic | FlowRate.

Definition category_name (c : Category) : string :=
  match c with
  | Corrosion => "corrosion"
  | Pressure => "pressure"
  | Temperature => "temperature"
  | Acoustic => "acoustic"
  | FlowRate => "flow_rate"
  end.

(** The categories whose branch builds a frame. *)
Definition working (c : Category) : bool :=
  match c with FlowRate => false | _ => true end.

(** The interval the values of a category are drawn from (the arguments of
    the [uniform] call of its branch). *)
Definition value_range (c : Category) : Q * Q :=
  match c with
  | Corrosion => (0, 1)
  | Pressure => (0, 100)
  | Temperature => (-50, 150)
  | Acoustic => (40, 120)
  | FlowRate => (0, 1000)
  end%Q.

(** The status the branch of category [c] gives to a reading of value [v]:
    its status expression on the one-cell array of [v]. *)
Definition classify (c : Category) (v : Q) : string :=
  match c with
  | Corrosion => hd "" (corrosion_status [v])
  | Pressure => hd "" (pressure_status [v])
  | Temperature => hd "" (temperature_status [v])
  | Acoustic => hd "" (acoustic_status [v])
  | FlowRate => flow_rate_status v
  end.

(** ** The current-value reduction of the bar charts *)

(** [pd.concat(frames)] for frames of one category: the columns are appended
    in order.  [Type] is kept when every frame has it. *)
Definition concat_types (frames : list DataFrame) : option (list string) :=
  fold_right (fun df acc =>
                match Type_ df, acc with
                | Some l, Some r => Some (l ++ r)
                | _, _ => None
                end) (Some []) frames.

Definition pd_concat (frames : list DataFrame) : DataFrame :=
  mkDataFrame (flat_map Time frames) (flat_map Sensor_ID frames)
              (flat_map Value frames) (flat_map Status frames)
              (concat_types frames).

(** The distinct keys in increasing order. *)
Fixpoint insert_key (k : Z) (keys : list Z) : list Z :=
  match keys with
  | [] => [k]
  | k' :: rest =>
      if k <? k' then k :: keys
      else if k =? k' then keys
      else k' :: insert_key k rest
  end.

Definition group_keys (ids : list (option Z)) : list Z :=
  fold_right (fun id acc => match id with
                            | Some k => insert_key k acc
                            | None => acc
                            end) [] ids.

Definition has_key (k : Z) (r : Reading) : bool :=
  match r_sensor r with Some k' => k' =? k | None => false end.

(** [df.groupby('Sensor ID').last().reset_index()]: one row per distinct
    non-null identity, in increasing order of identity, holding the last row
    of the group (no cell of these frames is null, so the last non-null cell
    of every column is the cell of the last row). *)
Definition groupby_last (df : DataFrame) : list Reading :=
  flat_map (fun k => opt_list (last (map Some (filter (has_key k) (rows df))) None))
           (group_keys (Sensor_ID df)).

(** [range(n)] *)
Definition range (n : nat) : list Z := map Z.of_nat (seq 0 n).

(** The first two statements shared by [update_corrosion_bar_chart],
    [update_pressure_bar_chart], [update_temperature_bar_chart] and
    [update_acoustic_bar_chart]: the ten frames and [current_values]. *)
Definition sensor_frames (sensor_type : string) : M (list DataFrame) :=
  mapM (fun i => generate_sensor_data sensor_type 1 10 (Some i)) (range 10).

Definition current_values (sensor_type : string) : M (list Reading) :=
  frames <- sensor_frames sensor_type ;;
  ret (groupby_last (pd_concat frames)).

Definition update_corrosion_bar_chart : M (list Reading) :=
  current_values "corrosion".
Definition update_pressure_bar_chart : M (list Reading) :=
  current_values "pressure".
Definition update_temperature_bar_chart : M (list Reading) :=
  current_values "temperature".
Definition update_acoustic_bar_chart : M (list Reading) :=
  current_values "acoustic".

(** ** Figures and components *)

(** [marker_color]: one colour per point, or one colour for the trace. *)
Inductive marker_color : Type :=
| ColorEach (colors : list string)
| ColorAll (color : string).

(** [go.Bar(x, y, marker_color, name, marker_line, legendgroup,
    showlegend)]; the keywords a call leaves out are [None]. *)
Record Bar : Type := mkBar {
  bar_x : list (option Z);
  bar_y : list Q;
  bar_marker_color : marker_color;
  bar_name : option string;
  bar_marker_line : option (string * Z);
  bar_legendgroup : option string;
  bar_showlegend : option bool
}.

(** [go.Scatter(x, y, mode, marker_color)] *)
Record Scatter : Type := mkScatter {
  scatter_x : list Z;
  scatter_y : list Q;
  scatter_mode : string;
  scatter_marker_color : list string
}.

Inductive trace : Type :=
| BarTrace (b : Bar)
| ScatterTrace (s : Scatter).

(** The layout keywords the callbacks set; [xaxis] and [yaxis] are the
    [dict(range=[...])] entries of the corrosion details. *)
Record Layout : Type := mkLayout {
  title : string;
  xaxis_title : string;
  yaxis_title : string;
  yaxis_range : Q * Q;
  legend_title : option string;
  xaxis : option (option Z * option Z);
  yaxis : option (Q * Q)
}.

Record Figure : Type := mkFigure {
  data : list trace;
  layout : Layout
}.

(** [dcc.Graph(figure=...)], [html.Div([...])], [html.H3(...)],
    [html.P(...)] *)
#[warnings="-register-all"]
Inductive component : Type :=
| Graph (figure : Figure)
| Div (children : list component)
| H3 (text : string)
| P (text : string).

(** ** Python and pandas helpers of the callbacks *)

(** [str(n)] for an integer, as an f-string inserts it. *)
Definition py_str (n : Z) : string := NilZero.string_of_int (Z.to_int n).

(** [int(n)] for an integer. *)
Definition py_int (n : Z) : Z := n.

(** [sep.join(items)] *)
Fixpoint str_join (sep : string) (items : list string) : string :=
  match items with
  | [] => ""
  | [s] => s
  | s :: rest => (s ++ sep ++ str_join sep rest)%string
  end.

(** [Series.unique()]: the distinct cells in order of first appearance. *)
Fixpoint unique (cells : list string) : list string :=
  match cells with
  | [] => []
  | x :: rest => x :: filter (fun y => negb (y =? x)%string) (unique rest)
  end.

(** [Series.min()] and [Series.max()] of a column of instants: nothing for
    an empty column. *)
Definition series_min (cells : list Z) : option Z :=
  match cells with
  | [] => None
  | x :: rest => Some (fold_left Z.min rest x)
  end.

Definition series_max (cells : list Z) : option Z :=
  match cells with
  | [] => None
  | x :: rest => Some (fold_left Z.max rest x)
  end.

(** The lambda applied to the [Status] column:
    ['green' if x == "Good" else 'orange' if x == "Concern" else 'red']. *)
Definition status_color (x : string) : string :=
  (if x =? "Good" then "green" else if x =? "Concern" then "orange"
   else "red")%string.

(** ** The bar-chart callbacks, whole *)

(** The figure of [update_corrosion_bar_chart],
    [update_temperature_bar_chart] and [update_acoustic_bar_chart]: one
    [go.Bar] over the current values, then [update_layout]. *)
Definition single_bar_figure (current_values : list Reading)
    (title_ yaxis_title_ : string) (yaxis_range_ : Q * Q) : Figure :=
  mkFigure
    [BarTrace
       (mkBar (map r_sensor current_values) (map r_value current_values)
              (ColorEach (map status_color (map r_status current_values)))
              None None None None)]
    (mkLayout title_ "Sensor ID" yaxis_title_ yaxis_range_ None None None).

Definition update_corrosion_bar_chart_figure : M Figure :=
  current_values <- update_corrosion_bar_chart ;;
  ret (single_bar_figure current_values "Current Corrosion Sensor Values"
         "Corrosion Rate (mm/year)" (0, 1)%Q).

Definition update_temperature_bar_chart_figure : M Figure :=
  current_values <- update_temperature_bar_chart ;;
  ret (single_bar_figure current_values "Current Temperature Sensor Values"
         "Temperature (°C)" (-50, 150)%Q).

Definition update_acoustic_bar_chart_figure : M Figure :=
  current_values <- update_acoustic_bar_chart ;;
  ret (single_bar_figure current_values "Current Acoustic Sensor Values"
         "Acoustic Level (dB)" (40, 120)%Q).

(** One round of the loop of [update_pressure_bar_chart]: the rows of one
    status, as a named trace of one colour. *)
Definition pressure_trace (current_values : list Reading)
    (status color : string) : trace :=
  let filtered_values :=
    filter (fun r => (r_status r =? status)%string) current_values in
  BarTrace
    (mkBar (map r_sensor filtered_values) (map r_value filtered_values)
           (ColorAll color) (Some status) (Some (color, 1)) (Some status)
           (Some true)).

Definition update_pressure_bar_chart_figure : M Figure :=
  current_values <- update_pressure_bar_chart ;;
  let traces :=
    fold_left (fun fig '(status, color) =>
                 fig ++ [pressure_trace current_values status color])
              (combine ["Good"; "Concern"; "Malfunction"]
                       ["green"; "orange"; "red"])
              [] in
  ret (mkFigure traces
         (mkLayout "Current Pressure Sensor Values" "Sensor ID"
                   "Pressure (psi)" (0, 100)%Q (Some "Status") None None)).

(** ** The details callbacks *)

(** [clickData]: [None] before any click, else a dict whose ['points'] list
    holds one dict per clicked point; a point is given by its integer
    fields (['x'] is the identity under the clicked bar). *)
Definition point : Type := list (string * Z).
Definition clickData : Type := option (list point).

Inductive callback_exn : Type :=
| GeneratorError (e : exn)
| KeyError (key : string)
| IndexError.

Inductive callback_result (A : Type) : Type :=
| Done (a : A)
| Raised (e : callback_exn).

Arguments Done {A} a.
Arguments Raised {A} e.

(** [p[key]] on a dict *)
Fixpoint getitem (p : point) (key : string) : callback_result Z :=
  match p with
  | [] => Raised (KeyError key)
  | (k, v) :: rest => if (k =? key)%string then Done v else getitem rest key
  end.

(** [clickData['points'][0]['x']] *)
Definition clicked_sensor (points : list point) : callback_result Z :=
  match points with
  | [] => Raised IndexError
  | p :: _ => getitem p "x"
  end.

(** The [go.Scatter] figure of a details callback. *)
Definition line_figure (detailed_data : DataFrame) (layout_ : Layout)
  : Figure :=
  mkFigure
    [ScatterTrace
       (mkScatter (Time detailed_data) (Value detailed_data) "lines+markers"
                  (map status_color (Status detailed_data)))]
    layout_.

(** The shape shared by the four [display_*_sensor_details]: nothing without
    a click; else the identity of the clicked bar, 24 hours of its data and
    what [render] builds from them. *)
Definition display_details (sensor_type : string) (convert : Z -> Z)
    (render : Z -> DataFrame -> component) (click : clickData) (w : World)
  : callback_result (option component * World) :=
  match click with
  | None => Done (None, w)
  | Some points =>
      match clicked_sensor points with
      | Raised e => Raised e
      | Done sensor_id =>
          match generate_sensor_data sensor_type 24 10
                  (Some (convert sensor_id)) w with
          | Err e => Raised (GeneratorError e)
          | Ok (detailed_data, w') => Done (Some (render sensor_id detailed_data), w')
          end
      end
  end.

(** [detailed_data['Type']] is the column every corrosion frame has; the
    branch for a frame without it is never taken. *)
Definition display_corrosion_sensor_details
  : clickData -> World -> callback_result (option component * World) :=
  display_details "corrosion" (fun sensor_id => sensor_id)
    (fun sensor_id detailed_data =>
       let line_chart :=
         Graph
           (line_figure detailed_data
              (mkLayout
                 ("Corrosion Sensor " ++ py_str sensor_id ++ " - 24 Hours Data")
                 "Time" "Corrosion Rate (mm/year)" (0, 1)%Q None
                 (Some (series_min (Time detailed_data),
                        series_max (Time detailed_data)))
                 (Some (0, 1)%Q))) in
       let corrosion_types :=
         str_join ", "
           (unique (match Type_ detailed_data with Some l => l | None => [] end)) in
       let details :=
         Div [H3 ("Sensor ID: " ++ py_str sensor_id);
              P ("Corrosion Types: " ++ corrosion_types)] in
       Div [line_chart; details])%string.

Definition display_pressure_sensor_details
  : clickData -> World -> callback_result (option component * World) :=
  display_details "pressure" (fun sensor_id => sensor_id)
    (fun sensor_id detailed_data =>
       Graph
         (line_figure detailed_data
            (mkLayout
               ("Pressure Sensor " ++ py_str sensor_id ++ " - 24 Hours Data")
               "Time" "Pressure (psi)" (0, 100)%Q None None None)))%string.

Definition display_temperature_sensor_details
  : clickData -> World -> callback_result (option component * World) :=
  display_details "temperature" (fun sensor_id => sensor_id)
    (fun sensor_id detailed_data =>
       Graph
         (line_figure detailed_data
            (mkLayout
               ("Temperature Sensor " ++ py_str sensor_id ++ " - 24 Hours Data")
               "Time" "Temperature (°C)" (-50, 150)%Q None None None)))%string.

Definition display_acoustic_sensor_details
  : clickData -> World -> callback_result (option component * World) :=
  display_details "acoustic" py_int
    (fun sensor_id detailed_data =>
       Graph
         (line_figure detailed_data
            (mkLayout
               ("Acoustic Sensor " ++ py_str sensor_id ++ " - 24 Hours Data")
               "Time" "Acoustic Level (dB)" (40, 120)%Q None None None)))%string.

(** ** A concrete world

    A clock that advances by a microsecond per reading and two fixed streams
    of raw draws, for the concrete runs below. *)

Definition demo_world : World :=
  mkWorld (fun k => 1700000000000000 + Z.of_nat k) 0
          (fun k => 1234567890123 * Z.of_nat (k * k + 7)) 0
          (fun k => 987654321 * Z.of_nat (k + 1)) 0.

(** A click on the bar of sensor 3. *)
Definition demo_click : list point := [[("curveNumber", 0); ("x", 3)]].

(** ** Closed forms

    What a call of [generate_sensor_data] reads from the world, cell by cell.
    The properties below relate the generator to these. *)

(** The category a [sensor_type] selects, following the chain of tests. *)
Definition category_of (sensor_type : string) : option Category :=
  (if sensor_type =? "corrosion" then Some Corrosion
   else if sensor_type =? "pressure" then Some Pressure
   else if sensor_type =? "temperature" then Some Temperature
   else if sensor_type =? "acoustic" then Some Acoustic
   else if sensor_type =? "flow_rate" then Some FlowRate
   else None)%string.

Definition now_of (w : World) : Z := clock w (ticks w).

(** The number of instants of the requested range, and the [k]-th of them. *)
Definition span (h i : Z) : nat :=
  Z.to_nat (timedelta_hours h / minutes i + 1).

Definition time_at (now h i : Z) (k : nat) : Z :=
  now - timedelta_hours h + Z.of_nat k * minutes i.

Definition time_grid (now h i : Z) : list Z :=
  map (time_at now h i) (seq 0 (span h i)).

(** The [k]-th value: the [k]-th pending draw of numpy's generator, scaled to
    the range of the category. *)
Definition value_at (c : Category) (w : World) (k : nat) : Q :=
  (fst (value_range c)
   + (snd (value_range c) - fst (value_range c))
     * unit_sample (np_stream w (np_pos w + k)%nat))%Q.

(** The [k]-th corrosion mechanism, drawn after the [n] values. *)
Definition mechanism_at (w : World) (n k : nat) : string :=
  nth (Z.to_nat (np_stream w (np_pos w + n + k)%nat
                 mod Z.of_nat (length corrosion_mechanisms)))
      corrosion_mechanisms "Uniform".

Definition type_at (c : Category) (w : World) (n k : nat) : option string :=
  match c with
  | Corrosion => Some (mechanism_at w n k)
  | _ => None
  end.

(** The frame a working branch builds over a time range, and its [k]-th
    row. *)
Definition frame_on (c : Category) (time_range : list Z)
    (sensor_id : option Z) (w : World) : DataFrame :=
  let n := length time_range in
  mkDataFrame time_range
              (repeat sensor_id n)
              (map (value_at c w) (seq 0 n))
              (map (fun k => classify c (value_at c w k)) (seq 0 n))
              (match c with
               | Corrosion => Some (map (mechanism_at w n) (seq 0 n))
               | _ => None
               end).

Definition reading_on (c : Category) (time_range : list Z)
    (sensor_id : option Z) (w : World) (k : nat) : Reading :=
  mkReading (nth k time_range 0) sensor_id (value_at c w k)
            (classify c (value_at c w k))
            (type_at c w (length time_range) k).

(** The world after the call: one clock reading, and [n] numpy draws per
    random column. *)
Definition world_after (c : Category) (n : nat) (w : World) : World :=
  mkWorld (clock w) (S (ticks w)) (np_stream w)
          (match c with
           | Corrosion => np_pos w + n + n
           | FlowRate => np_pos w
           | _ => np_pos w + n
           end)%nat
          (py_stream w) (py_pos w).

(** What the body does once the clock was read and the range was built. *)
Definition outcome (sensor_type : string) (time_range : list Z)
    (sensor_id : option Z) (w : World) : result (DataFrame * World) :=
  match category_of sensor_type with
  | Some c =>
      if working c
      then Ok (frame_on c time_range sensor_id w,
               world_after c (length time_range) w)
      else Err (UnboundLocalError "sensor_data")
  | None => Err (UnboundLocalError "sensor_data")
  end.

(** The world in which the [j]-th call of a bar chart starts, and the frame
    that call builds. *)
Definition world_before (c : Category) (j : nat) (w : World) : World :=
  Nat.iter j (world_after c (span 1 10)) w.

Definition frame_of_call (c : Category) (w : World) (j : nat) : DataFrame :=
  frame_on c (time_grid (now_of (world_before c j w)) 1 10)
           (Some (Z.of_nat j)) (world_before c j w).

(** The last row of that frame. *)
Definition last_of_call (c : Category) (w : World) (j : nat) : Reading :=
  reading_on c (time_grid (now_of (world_before c j w)) 1 10)
             (Some (Z.of_nat j)) (world_before c j w) 6.

(** ** The threshold table of the specification *)

Definition band_good (c : Category) (v : Q) : Prop :=
  match c with
  | Corrosion => v < 0.1
  | Pressure => v < 80
  | Temperature => -20 < v /\ v < 120
  | Acoustic => 60 <= v /\ v <= 90
  | FlowRate => 100 < v /\ v < 900
  end%Q.

Definition band_concern (c : Category) (v : Q) : Prop :=
  match c with
  | Corrosion => 0.1 <= v /\ v < 0.4
  | Pressure => 80 <= v /\ v < 95
  | Temperature => (-40 < v /\ v < 140) /\ ~ band_good c v
  | Acoustic => (50 <= v /\ v <= 100) /\ ~ band_good c v
  | FlowRate => (50 < v /\ v < 950) /\ ~ band_good c v
  end%Q.

Definition band_malfunction (c : Category) (v : Q) : Prop :=
  match c with
  | Corrosion => 0.4 <= v
  | Pressure => 95 <= v
  | _ => ~ band_good c v /\ ~ band_concern c v
  end%Q.

(** The range of values the specification states for a category. *)
Definition in_stated_range (c : Category) (v : Q) : Prop :=
  match c with
  | Corrosion => 0 <= v /\ v <= 1
  | Pressure => 0 <= v /\ v <= 100
  | Temperature => -50 <= v /\ v <= 150
  | Acoustic => 40 <= v /\ v <= 120
  | FlowRate => 0 <= v /\ v <= 1000
  end%Q.

(** ** Reading a figure *)

(** The callback of each category: there is none for the flow rate. *)
Definition bar_chart_callback (c : Category) : option (M Figure) :=
  match c with
  | Corrosion => Some update_corrosion_bar_chart_figure
  | Pressure => Some update_pressure_bar_chart_figure
  | Temperature => Some update_temperature_bar_chart_figure
  | Acoustic => Some update_acoustic_bar_chart_figure
  | FlowRate => None
  end.

Definition details_callback (c : Category)
  : option (clickData -> World -> callback_result (option component * World)) :=
  match c with
  | Corrosion => Some display_corrosion_sensor_details
  | Pressure => Some display_pressure_sensor_details
  | Temperature => Some display_temperature_sensor_details
  | Acoustic => Some display_acoustic_sensor_details
  | FlowRate => None
  end.

(** The bars a trace draws: identity, height and colour. *)
Definition bar_colors (b : Bar) : list string :=
  match bar_marker_color b with
  | ColorEach colors => colors
  | ColorAll color => repeat color (length (bar_x b))
  end.

Definition bars_of (t : trace) : list (option Z * Q * string) :=
  match t with
  | BarTrace b => combine (combine (bar_x b) (bar_y b)) (bar_colors b)
  | ScatterTrace _ => []
  end.

Definition figure_bars (fig : Figure) : list (option Z * Q * string) :=
  flat_map bars_of (data fig).

(** The points a trace plots: instant, height and colour. *)
Definition points_of (t : trace) : list (Z * Q * string) :=
  match t with
  | ScatterTrace s =>
      combine (combine (scatter_x s) (scatter_y s)) (scatter_marker_color s)
  | BarTrace _ => []
  end.

(** The line chart of what a details callback returns: the graph itself, or
    the first child of the [Div]. *)
Definition chart_of (shown : component) : option Figure :=
  match shown with
  | Graph fig => Some fig
  | Div (Graph fig :: _) => Some fig
  | _ => None
  end.

(** The word a details title starts with. *)
Definition title_kind (c : Category) : string :=
  match c with
  | Corrosion => "Corrosion"
  | Pressure => "Pressure"
  | Temperature => "Temperature"
  | Acoustic => "Acoustic"
  | FlowRate => "Flow Rate"
  end.

(** The bar a current reading is drawn as. *)
Definition bar_of (r : Reading) : option Z * Q * string :=
  (r_sensor r, r_value r, status_color (r_status r)).

(** The colour of a band. *)
Definition band_of_color (c : Category) (color : string) (v : Q) : Prop :=
  (color = "green" /\ band_good c v) \/
  (color = "orange" /\ band_concern c v) \/
  (color = "red" /\ band_malfunction c v).

(** * Properties *)

(** ** The monad *)

Lemma bind_Ok {A B} (m : M A) (k : A -> M B) w a w' :
  m w = Ok (a, w') -> bind m k w = k a w'.
Proof. intros E. unfold bind. now rewrite E. Qed.

(** ** The time range *)

Lemma minutes_pos i : 1 <= i -> 0 < minutes i.
Proof. unfold minutes. lia. Qed.

(** The number of strides that fit in [h] hours. *)
Lemma strides_in_hours h i :
  1 <= i -> timedelta_hours h / minutes i = h * 60 / i.
Proof.
  intros Hi. unfold timedelta_hours, minutes.
  replace (h * 3600000000) with (h * 60 * 60000000) by ring.
  apply Z.div_mul_cancel_r; lia.
Qed.

Lemma arange_count q s r :
  0 < s -> 0 < r <= s -> - ((- (q * s + r)) / s) = q + 1.
Proof.
  intros Hs Hr.
  replace (- (q * s + r)) with ((s - r) + (- q - 1) * s) by ring.
  rewrite Z.div_add by lia. rewrite Z.div_small by lia. ring.
Qed.

Lemma date_range_hours now h i :
  1 <= i ->
  pd_date_range (now - timedelta_hours h) now i
  = Ok (time_grid now h i).
Proof.
  intros Hi. pose proof (minutes_pos i Hi) as Hs.
  unfold pd_date_range.
  destruct (Z.eqb_spec (minutes i) 0) as [E|_]; [lia|].
  cbv zeta. unfold np_arange, time_grid. f_equal. f_equal. f_equal.
  unfold span. f_equal.
  replace (now - (now - timedelta_hours h)) with (timedelta_hours h) by ring.
  set (q := timedelta_hours h / minutes i).
  replace (now - timedelta_hours h
           - (now - timedelta_hours h + q * minutes i + minutes i / 2 + 1))
    with (- (q * minutes i + (minutes i / 2 + 1))) by ring.
  apply arange_count; [exact Hs|].
  pose proof (Z.div_pos (minutes i) 2 ltac:(lia) ltac:(lia)).
  pose proof (Z.mul_div_le (minutes i) 2 ltac:(lia)).
  lia.
Qed.

Lemma span_hours h i :
  0 <= h -> 1 <= i -> span h i = S (Z.to_nat (h * 60 / i)).
Proof.
  intros Hh Hi. unfold span. rewrite strides_in_hours by exact Hi.
  assert (0 <= h * 60 / i) by (apply Z.div_pos; lia).
  rewrite Z2Nat.inj_add by lia. simpl. lia.
Qed.

(** ** The status columns, cell by cell *)

Ltac status_cells column c :=
  let v := fresh "v" in
  let vs := fresh "vs" in
  let IH := fresh "IH" in
  intros values; induction values as [|v vs IH]; [reflexivity|];
  change (column (v :: vs)) with (classify c v :: column vs);
  rewrite IH; reflexivity.

Lemma corrosion_status_map :
  forall values, corrosion_status values = map (classify Corrosion) values.
Proof. status_cells corrosion_status Corrosion. Qed.

Lemma pressure_status_map :
  forall values, pressure_status values = map (classify Pressure) values.
Proof. status_cells pressure_status Pressure. Qed.

Lemma temperature_status_map :
  forall values, temperature_status values = map (classify Temperature) values.
Proof. status_cells temperature_status Temperature. Qed.

Lemma acoustic_status_map :
  forall values, acoustic_status values = map (classify Acoustic) values.
Proof. status_cells acoustic_status Acoustic. Qed.

(** ** The generator in closed form *)

Lemma bind_lift_Ok {A B} (a : A) (k : A -> M B) w :
  bind (lift (Ok a)) k w = k a w.
Proof. reflexivity. Qed.

Lemma pd_DataFrame_Ok time sensor value status type_ :
  length sensor = length time ->
  length value = length time ->
  length status = length time ->
  match type_ with Some l => length l = length time | None => True end ->
  pd_DataFrame time sensor value status type_
  = Ok (mkDataFrame time sensor value status type_).
Proof.
  intros Hs Hv Hst Hty. unfold pd_DataFrame.
  rewrite Hs, Hv, Hst, !Nat.eqb_refl.
  destruct type_ as [l|]; [rewrite Hty, Nat.eqb_refl|]; reflexivity.
Qed.

Lemma category_of_name c : category_of (category_name c) = Some c.
Proof. destruct c; reflexivity. Qed.

Lemma category_name_inj c c' : category_name c = category_name c' -> c = c'.
Proof. destruct c, c'; intros E; try reflexivity; discriminate E. Qed.

Lemma category_of_Some sensor_type c :
  category_of sensor_type = Some c -> sensor_type = category_name c.
Proof.
  unfold category_of.
  repeat match goal with
         | |- context [String.eqb ?a ?b] =>
             destruct (String.eqb_spec a b) as [->|?]
         end; intros E; inversion E; reflexivity.
Qed.

(** A branch that draws its columns and builds the frame. *)
Ltac working_branch :=
  cbv beta iota delta [bind np_random_uniform np_random_choice
                       corrosion_mechanisms working];
  rewrite ?corrosion_status_map, ?pressure_status_map,
    ?temperature_status_map, ?acoustic_status_map;
  rewrite pd_DataFrame_Ok;
  [ cbv beta iota delta [lift ret load_local];
    unfold frame_on, world_after, np_draws, np_advance;
    cbn [np_pos np_stream clock ticks py_stream py_pos];
    rewrite !map_map; reflexivity
  | unfold np_draws; cbn [length];
    rewrite ?length_map, ?length_seq, ?repeat_length; auto .. ].

Lemma generate_sensor_data_eq sensor_type h i sensor_id w :
  generate_sensor_data sensor_type h i sensor_id w
  = match pd_date_range (now_of w - timedelta_hours h) (now_of w) i with
    | Ok time_range => outcome sensor_type time_range sensor_id w
    | Err e => Err e
    end.
Proof.
  unfold generate_sensor_data.
  rewrite (bind_Ok datetime_now _ w (now_of w)
             (mkWorld (clock w) (S (ticks w)) (np_stream w) (np_pos w)
                      (py_stream w) (py_pos w))) by reflexivity.
  destruct (pd_date_range (now_of w - timedelta_hours h) (now_of w) i)
    as [time_range|e]; [|reflexivity].
  rewrite bind_lift_Ok. cbv zeta. unfold outcome, category_of.
  destruct (sensor_type =? "corrosion")%string; [working_branch|].
  destruct (sensor_type =? "pressure")%string; [working_branch|].
  destruct (sensor_type =? "temperature")%string; [working_branch|].
  destruct (sensor_type =? "acoustic")%string; [working_branch|].
  destruct (sensor_type =? "flow_rate")%string; reflexivity.
Qed.

Lemma generate_closed_form c h i sensor_id w :
  working c = true -> 1 <= i ->
  generate_sensor_data (category_name c) h i sensor_id w
  = Ok (frame_on c (time_grid (now_of w) h i) sensor_id w,
        world_after c (span h i) w).
Proof.
  intros Hc Hi. rewrite generate_sensor_data_eq, date_range_hours by exact Hi.
  unfold outcome. rewrite category_of_name, Hc.
  unfold time_grid. now rewrite length_map, length_seq.
Qed.

(** Whatever frame the generator returns was built by a working branch. *)
Lemma generate_inv sensor_type h i sensor_id w df w' :
  generate_sensor_data sensor_type h i sensor_id w = Ok (df, w') ->
  exists c time_range,
    sensor_type = category_name c /\ working c = true /\
    df = frame_on c time_range sensor_id w.
Proof.
  rewrite generate_sensor_data_eq.
  destruct (pd_date_range _ _ _) as [time_range|e]; [|discriminate].
  unfold outcome. destruct (category_of sensor_type) as [c|] eqn:Ec;
    [|discriminate].
  destruct (working c) eqn:Hc; [|discriminate].
  intros E. inversion E; subst. exists c, time_range.
  split; [now apply category_of_Some|]. now split.
Qed.

(** ** Concrete runs *)

Example pressure_hour_by_ten :
  exists df w',
    generate_sensor_data "pressure" 1 10 (Some 3) demo_world = Ok (df, w') /\
    Time df = [1699996400000000; 1699997000000000; 1699997600000000;
               1699998200000000; 1699998800000000; 1699999400000000;
               1700000000000000] /\
    Sensor_ID df = repeat (Some 3) 7 /\
    Status df = repeat "Good" 7 /\
    Type_ df = None.
Proof.
  assert (H10 : 1 <= 10) by lia.
  do 2 eexists.
  split; [exact (generate_closed_form Pressure 1 10 (Some 3) demo_world
                   eq_refl H10)|].
  repeat split; vm_compute; reflexivity.
Qed.

Example corrosion_hour_by_twenty_five :
  exists df w',
    generate_sensor_data "corrosion" 1 25 None demo_world = Ok (df, w') /\
    Time df = [1699996400000000; 1699997900000000; 1699999400000000] /\
    Sensor_ID df = [None; None; None] /\
    Type_ df = Some ["Uniform"; "Pitting"; "Uniform"].
Proof.
  assert (H25 : 1 <= 25) by lia.
  do 2 eexists.
  split; [exact (generate_closed_form Corrosion 1 25 None demo_world
                   eq_refl H25)|].
  repeat split; vm_compute; reflexivity.
Qed.

Example temperature_day_by_ten :
  exists df w',
    generate_sensor_data "temperature" 24 10 (Some 5) demo_world = Ok (df, w') /\
    length (Time df) = 145%nat.
Proof.
  assert (H10 : 1 <= 10) by lia.
  do 2 eexists.
  split; [exact (generate_closed_form Temperature 24 10 (Some 5) demo_world
                   eq_refl H10)|].
  vm_compute. reflexivity.
Qed.

Example vibration_fails :
  generate_sensor_data "vibration" 24 10 (Some 1) demo_world
  = Err (UnboundLocalError "sensor_data").
Proof. rewrite generate_sensor_data_eq. reflexivity. Qed.

Example flow_rate_fails :
  generate_sensor_data "flow_rate" 24 10 (Some 1) demo_world
  = Err (UnboundLocalError "sensor_data").
Proof. rewrite generate_sensor_data_eq. reflexivity. Qed.

Example classify_boundaries :
  classify Corrosion 0.1 = "Concern" /\ classify Corrosion 0.4 = "Malfunction" /\
  classify Pressure 80 = "Concern" /\ classify Pressure 95 = "Malfunction" /\
  classify Temperature (-20) = "Concern" /\ classify Temperature 120 = "Concern" /\
  classify Temperature (-40) = "Malfunction" /\
  classify Acoustic 60 = "Good" /\ classify Acoustic 90 = "Good" /\
  classify Acoustic 50 = "Concern" /\ classify Acoustic 100 = "Concern" /\
  classify FlowRate 100 = "Concern" /\ classify FlowRate 50 = "Malfunction".
Proof. repeat split. Qed.

(** The four callbacks are [current_values] at their category. *)
Lemma update_callbacks :
  update_corrosion_bar_chart = current_values (category_name Corrosion) /\
  update_pressure_bar_chart = current_values (category_name Pressure) /\
  update_temperature_bar_chart = current_values (category_name Temperature) /\
  update_acoustic_bar_chart = current_values (category_name Acoustic).
Proof. repeat split. Qed.

(** ** Rows of a frame *)

Lemma flat_map_cells {A B} (f : A -> option B) (g : A -> B) (l : list A) :
  (forall a, In a l -> f a = Some (g a)) ->
  flat_map (fun a => opt_list (f a)) l = map g l.
Proof.
  induction l as [|a l IH]; intros H; [reflexivity|].
  cbn [flat_map map]. rewrite (H a) by now left.
  cbn [opt_list app]. f_equal. apply IH. intros b Hb. apply H. now right.
Qed.

Lemma nth_error_map_seq {A} (f : nat -> A) n k :
  (k < n)%nat -> nth_error (map f (seq 0 n)) k = Some (f k).
Proof.
  intros Hk. rewrite nth_error_map, nth_error_seq.
  apply Nat.ltb_lt in Hk. now rewrite Hk.
Qed.

Lemma iloc_frame_on c time_range sensor_id w k :
  (k < length time_range)%nat ->
  iloc (frame_on c time_range sensor_id w) k
  = Some (reading_on c time_range sensor_id w k).
Proof.
  intros Hk. unfold iloc, frame_on. cbv zeta.
  cbn [Time Sensor_ID Value Status Type_].
  rewrite (nth_error_nth' time_range 0 Hk).
  rewrite !nth_error_map_seq by exact Hk.
  rewrite nth_error_repeat by exact Hk.
  destruct c; try rewrite nth_error_map_seq by exact Hk; reflexivity.
Qed.

Lemma rows_frame_on c time_range sensor_id w :
  rows (frame_on c time_range sensor_id w)
  = map (reading_on c time_range sensor_id w) (seq 0 (length time_range)).
Proof.
  unfold rows. change (Time (frame_on c time_range sensor_id w)) with time_range.
  apply flat_map_cells. intros k Hk. apply in_seq in Hk.
  apply iloc_frame_on. lia.
Qed.

Lemma in_rows_frame_on c time_range sensor_id w r :
  In r (rows (frame_on c time_range sensor_id w)) <->
  exists k, (k < length time_range)%nat /\
            r = reading_on c time_range sensor_id w k.
Proof.
  rewrite rows_frame_on, in_map_iff. split.
  - intros (k & E & Hk). apply in_seq in Hk. exists k. split; [lia|easy].
  - intros (k & Hk & E). exists k. split; [easy|]. apply in_seq. lia.
Qed.

(** ** Status bands *)

Lemma Qle_bool_reflect x y : reflect (x <= y)%Q (Qle_bool x y).
Proof. apply iff_reflect. symmetry. apply Qle_bool_iff. Qed.

Lemma Qltb_reflect x y : reflect (x < y)%Q (Qltb x y).
Proof.
  unfold Qltb. destruct (Qle_bool_reflect y x) as [H|H]; constructor.
  - now apply Qle_not_lt.
  - now apply Qnot_le_lt.
Qed.

(** What [classify] computes, with the comparisons of each branch. *)
Lemma classify_cases c v :
  classify c v =
  match c with
  | Corrosion =>
      if Qltb v 0.1 then "Good" else if Qltb v 0.4 then "Concern"
      else "Malfunction"
  | Pressure =>
      if Qltb v 80 then "Good" else if Qltb v 95 then "Concern"
      else "Malfunction"
  | Temperature =>
      if (Qltb (-20) v && Qltb v 120)%bool then "Good"
      else if (Qltb (-40) v && Qltb v 140)%bool then "Concern"
      else "Malfunction"
  | Acoustic =>
      if (Qle_bool 60 v && Qle_bool v 90)%bool then "Good"
      else if (Qle_bool 50 v && Qle_bool v 100)%bool then "Concern"
      else "Malfunction"
  | FlowRate =>
      if (Qltb 100 v && Qltb v 900)%bool then "Good"
      else if (Qltb 50 v && Qltb v 950)%bool then "Concern"
      else "Malfunction"
  end.
Proof. destruct c; reflexivity. Qed.

Ltac split_comparisons :=
  repeat match goal with
         | |- context [Qltb ?a ?b] => destruct (Qltb_reflect a b)
         | |- context [Qle_bool ?a ?b] => destruct (Qle_bool_reflect a b)
         end.

(** The status of a value is the band of the table that holds it. *)
Lemma classify_in_band c v :
  (classify c v = "Good" <-> band_good c v) /\
  (classify c v = "Concern" <-> band_concern c v) /\
  (classify c v = "Malfunction" <-> band_malfunction c v).
Proof.
  rewrite classify_cases.
  destruct c; unfold band_malfunction, band_concern, band_good;
    split_comparisons; cbn [andb];
    repeat split; intros; try discriminate; try tauto; try lra.
Qed.

Lemma classify_status c v :
  In (classify c v) ["Good"; "Concern"; "Malfunction"].
Proof.
  rewrite classify_cases.
  destruct c;
    repeat match goal with |- context [if ?b then _ else _] => destruct b end;
    cbn; auto.
Qed.

(** C2.  The status of a reading is one of the three strings [Good],
    [Concern], [Malfunction], and for each category it is the band of the
    threshold table that holds the value; the three bands are pairwise
    disjoint and cover every value. *)
Theorem classify_threshold_table (c : Category) (v : Q) :
  In (classify c v) ["Good"; "Concern"; "Malfunction"] /\
  (classify c v = "Good" <-> band_good c v) /\
  (classify c v = "Concern" <-> band_concern c v) /\
  (classify c v = "Malfunction" <-> band_malfunction c v) /\
  (band_good c v \/ band_concern c v \/ band_malfunction c v) /\
  ~ (band_good c v /\ band_concern c v) /\
  ~ (band_good c v /\ band_malfunction c v) /\
  ~ (band_concern c v /\ band_malfunction c v).
Proof.
  destruct (classify_in_band c v) as (G & C & B).
  pose proof (classify_status c v) as S.
  split; [exact S|]. split; [exact G|]. split; [exact C|]. split; [exact B|].
  cbn [In] in S. rewrite <- G, <- C, <- B.
  repeat split.
  - destruct S as [<-|[<-|[<-|[]]]]; auto.
  - intros [E1 E2]. rewrite E1 in E2. discriminate E2.
  - intros [E1 E2]. rewrite E1 in E2. discriminate E2.
  - intros [E1 E2]. rewrite E1 in E2. discriminate E2.
Qed.

#[local] Instance classify_Proper c : Proper (Qeq ==> eq) (classify c).
Proof.
  intros x y E. rewrite !classify_cases. unfold Qltb.
  assert (L : forall a, Qle_bool a x = Qle_bool a y)
    by (intros a; now rewrite E).
  assert (R : forall a, Qle_bool x a = Qle_bool y a)
    by (intros a; now rewrite E).
  destruct c; rewrite ?L, ?R; reflexivity.
Qed.

(** ** Values *)

Lemma unit_sample_range k : (0 <= unit_sample k /\ unit_sample k < 1)%Q.
Proof.
  assert (E : Z.pos (2 ^ 53)%positive = 2 ^ 53) by reflexivity.
  pose proof (Z.mod_pos_bound k (2 ^ 53) ltac:(lia)) as B.
  unfold unit_sample, Qle, Qlt. cbn [Qnum Qden]. rewrite E. lia.
Qed.

Lemma value_at_range c w k : in_stated_range c (value_at c w k).
Proof.
  unfold value_at.
  pose proof (unit_sample_range (np_stream w (np_pos w + k)%nat)) as [L U].
  destruct c; cbn [value_range fst snd in_stated_range]; lra.
Qed.

Lemma mechanism_at_known w n k : In (mechanism_at w n k) corrosion_mechanisms.
Proof.
  unfold mechanism_at.
  destruct (Z.to_nat _) as [|[|[|[|j]]]]; cbn; auto.
  destruct j; cbn; auto.
Qed.

(** ** Rows and their instants *)

Lemma map_nth_seq {A} (l : list A) d :
  map (fun k => nth k l d) (seq 0 (length l)) = l.
Proof.
  induction l as [|a l IH]; [reflexivity|].
  cbn [length seq map nth]. f_equal.
  rewrite <- seq_shift, map_map. exact IH.
Qed.

Lemma rows_times c time_range sensor_id w :
  map r_time (rows (frame_on c time_range sensor_id w)) = time_range.
Proof. rewrite rows_frame_on, map_map. apply map_nth_seq. Qed.

Lemma rows_length c time_range sensor_id w :
  length (rows (frame_on c time_range sensor_id w)) = length time_range.
Proof. now rewrite rows_frame_on, length_map, length_seq. Qed.

Lemma time_grid_nth now h i k :
  (k < span h i)%nat ->
  nth_error (time_grid now h i) k = Some (time_at now h i k).
Proof. apply nth_error_map_seq. Qed.

Lemma time_grid_nth_inv now h i k a :
  nth_error (time_grid now h i) k = Some a ->
  (k < span h i)%nat /\ a = time_at now h i k.
Proof.
  unfold time_grid. rewrite nth_error_map, nth_error_seq.
  destruct (Nat.ltb_spec k (span h i)); [|discriminate].
  cbn. intros E. inversion E. now split.
Qed.

Lemma time_grid_last now h i n :
  span h i = S n -> last (time_grid now h i) 0 = time_at now h i n.
Proof.
  intros E. unfold time_grid. rewrite E, seq_S, map_app. cbn [map Nat.add].
  apply last_last.
Qed.

(** The last instant of the grid falls short of [now] by the remainder of
    the division of the window by the interval. *)
Lemma last_instant h i now :
  0 <= h -> 1 <= i ->
  time_at now h i (Z.to_nat (h * 60 / i)) = now - minutes (h * 60 mod i).
Proof.
  intros Hh Hi. unfold time_at, timedelta_hours, minutes.
  assert (0 <= h * 60 / i) by (apply Z.div_pos; lia).
  rewrite Z2Nat.id by assumption.
  pose proof (Z.div_mod (h * 60) i ltac:(lia)). nia.
Qed.

(** ** The time grid of a series *)

(** C1, as stated, fails: for pressure, a window of one hour and an interval
    of seven minutes, the series has its nine readings but the last one is
    four minutes before [now]; so the last instant is not [now] for every
    window and interval. *)
Lemma last_instant_not_always_now :
  (exists df w',
     working Pressure = true /\ 0 <= 1 /\ 1 <= 7 /\
     generate_sensor_data "pressure" 1 7 (Some 3) demo_world = Ok (df, w') /\
     length (rows df) = 9%nat /\
     last (map r_time (rows df)) 0 = now_of demo_world - minutes 4 /\
     last (map r_time (rows df)) 0 <> now_of demo_world) /\
  ~ (forall c h i sensor_id w df w',
        working c = true -> 0 <= h -> 1 <= i ->
        generate_sensor_data (category_name c) h i sensor_id w = Ok (df, w') ->
        last (map r_time (rows df)) 0 = now_of w).
Proof.
  assert (H1 : 0 <= 1) by lia. assert (H7 : 1 <= 7) by lia.
  pose proof (generate_closed_form Pressure 1 7 (Some 3) demo_world
                eq_refl H7) as E.
  split.
  - do 2 eexists. split; [reflexivity|]. split; [exact H1|].
    split; [exact H7|]. split; [exact E|].
    rewrite rows_times, rows_length.
    split; [reflexivity|]. split; [reflexivity|].
    vm_compute. discriminate.
  - intros H.
    specialize (H Pressure 1 7 (Some 3) demo_world _ _ eq_refl H1 H7 E).
    rewrite rows_times in H. vm_compute in H. discriminate H.
Qed.

(** C1, amended.  Whenever a call for a working category, a window of
    [h >= 0] hours and an interval of [i >= 1] minutes returns a series, the
    series has [floor(h*60/i) + 1] readings; the [k]-th instant is
    [now - h hours + k*i minutes], so the instants are strictly increasing
    and exactly [i] minutes apart and the first one is [now - h hours]; the
    last one is [now - ((h*60) mod i) minutes], which is [now] exactly when
    [i] divides [h*60]. *)
Theorem generate_time_grid (c : Category) (h i : Z) (sensor_id : option Z)
    (w : World) (df : DataFrame) (w' : World) :
  0 <= h -> 1 <= i ->
  generate_sensor_data (category_name c) h i sensor_id w = Ok (df, w') ->
  let times := map r_time (rows df) in
  let n := Z.to_nat (h * 60 / i) in
  length (rows df) = S n /\
  (forall k, (k <= n)%nat ->
     nth_error times k
     = Some (now_of w - timedelta_hours h + Z.of_nat k * minutes i)) /\
  (forall j k a b, (j < k)%nat ->
     nth_error times j = Some a -> nth_error times k = Some b -> a < b) /\
  (forall k a b,
     nth_error times k = Some a -> nth_error times (S k) = Some b ->
     b - a = minutes i) /\
  hd_error times = Some (now_of w - timedelta_hours h) /\
  last times 0 = now_of w - minutes (h * 60 mod i) /\
  (last times 0 = now_of w <-> h * 60 mod i = 0).
Proof.
  intros Hh Hi E.
  destruct (generate_inv _ _ _ _ _ _ _ E) as (c' & tr & En & Hc & _).
  apply category_name_inj in En. subst c'.
  rewrite (generate_closed_form c h i sensor_id w Hc Hi) in E.
  injection E as <- _.
  cbv zeta. rewrite rows_times, rows_length.
  pose proof (span_hours h i Hh Hi) as Hn.
  pose proof (minutes_pos i Hi) as Hs.
  assert (Hlast : last (time_grid (now_of w) h i) 0
                  = now_of w - minutes (h * 60 mod i)).
  { rewrite (time_grid_last _ h i _ Hn). now apply last_instant. }
  repeat split.
  - unfold time_grid. now rewrite length_map, length_seq.
  - intros k Hk. rewrite time_grid_nth by lia. reflexivity.
  - intros j k a b Hjk Ha Hb.
    apply time_grid_nth_inv in Ha as [_ ->].
    apply time_grid_nth_inv in Hb as [_ ->].
    unfold time_at. nia.
  - intros k a b Ha Hb.
    apply time_grid_nth_inv in Ha as [_ ->].
    apply time_grid_nth_inv in Hb as [_ ->].
    unfold time_at. lia.
  - unfold time_grid. rewrite Hn. cbn [seq map hd_error]. unfold time_at.
    f_equal. lia.
  - exact Hlast.
  - rewrite Hlast. unfold minutes. lia.
  - intros E. rewrite Hlast, E. unfold minutes. lia.
Qed.

Lemma generate_time_grid_witness :
  exists df w',
    0 <= 1 /\ 1 <= 7 /\
    generate_sensor_data "pressure" 1 7 (Some 3) demo_world = Ok (df, w') /\
    length (rows df) = 9%nat /\
    last (map r_time (rows df)) 0 = now_of demo_world - minutes 4.
Proof.
  assert (H1 : 0 <= 1) by lia. assert (H7 : 1 <= 7) by lia.
  pose proof (generate_closed_form Pressure 1 7 (Some 3) demo_world
                eq_refl H7) as E.
  destruct (generate_time_grid Pressure 1 7 (Some 3) demo_world _ _ H1 H7 E)
    as (Hlen & _ & _ & _ & _ & Hlast & _).
  do 2 eexists. split; [exact H1|]. split; [exact H7|]. split; [exact E|].
  split; [exact Hlen|exact Hlast].
Defined.

(** ** Failing calls *)

(** C3.  A [sensor_type] that names none of the five categories makes the
    call fail, and the failure reaches the caller; but what is raised is the
    [UnboundLocalError] of the final [return], not the [ValueError] the
    docstring announces for an invalid sensor type. *)
Theorem generate_unknown_category (sensor_type : string) (h i : Z)
    (sensor_id : option Z) (w : World) :
  category_of sensor_type = None -> 1 <= i ->
  generate_sensor_data sensor_type h i sensor_id w
  = Err (UnboundLocalError "sensor_data") /\
  forall msg,
    generate_sensor_data sensor_type h i sensor_id w <> Err (ValueError msg).
Proof.
  intros Hn Hi.
  assert (E : generate_sensor_data sensor_type h i sensor_id w
              = Err (UnboundLocalError "sensor_data")).
  { rewrite generate_sensor_data_eq, date_range_hours by exact Hi.
    unfold outcome. now rewrite Hn. }
  split; [exact E|]. intros msg. rewrite E. discriminate.
Qed.

Lemma generate_unknown_category_witness :
  category_of "vibration" = None /\ 1 <= 10 /\
  generate_sensor_data "vibration" 24 10 None demo_world
  = Err (UnboundLocalError "sensor_data").
Proof.
  assert (H10 : 1 <= 10) by lia.
  split; [reflexivity|]. split; [exact H10|].
  apply (generate_unknown_category "vibration" 24 10 None demo_world
           eq_refl H10).
Defined.

(** C4.  A call for [flow_rate] never returns a frame, whatever the window
    and the interval: when the range can be built the branch fails on the
    unbound local [sensor_data], before any row exists. *)
Theorem generate_flow_rate_fails (h i : Z) (sensor_id : option Z) (w : World) :
  exists e,
    generate_sensor_data "flow_rate" h i sensor_id w = Err e /\
    (e = UnboundLocalError "sensor_data" \/ i = 0).
Proof.
  rewrite generate_sensor_data_eq. unfold pd_date_range, minutes.
  destruct (Z.eqb_spec (i * 60000000) 0) as [E|E].
  - exists ZeroDivisionError. split; [reflexivity|]. right. lia.
  - exists (UnboundLocalError "sensor_data"). split; [reflexivity|now left].
Qed.

(** ** Readings of a returned series *)

(** Every row of a returned frame is a [reading_on] row of a working
    category. *)
Lemma generated_row c h i sensor_id w df w' r :
  generate_sensor_data (category_name c) h i sensor_id w = Ok (df, w') ->
  In r (rows df) ->
  working c = true /\
  exists time_range k,
    df = frame_on c time_range sensor_id w /\
    (k < length time_range)%nat /\
    r = reading_on c time_range sensor_id w k.
Proof.
  intros E Hr.
  destruct (generate_inv _ _ _ _ _ _ _ E) as (c' & time_range & En & Hc & ->).
  apply category_name_inj in En. subst c'.
  split; [exact Hc|].
  apply in_rows_frame_on in Hr as (k & Hk & ->).
  now exists time_range, k.
Qed.

(** C5.  In every series the generator returns, the status of a reading is
    [classify] of the category and of the value of that reading; so two
    readings of one category with equal values have equal statuses, whatever
    the calls, worlds, sensor identities and positions they come from; and
    [classify] is the threshold table. *)
Theorem status_determined_by_value (c : Category)
    (h1 i1 : Z) (sensor1 : option Z) (w1 : World) (df1 : DataFrame) (w1' : World)
    (h2 i2 : Z) (sensor2 : option Z) (w2 : World) (df2 : DataFrame) (w2' : World)
    (r1 r2 : Reading) :
  generate_sensor_data (category_name c) h1 i1 sensor1 w1 = Ok (df1, w1') ->
  generate_sensor_data (category_name c) h2 i2 sensor2 w2 = Ok (df2, w2') ->
  In r1 (rows df1) -> In r2 (rows df2) ->
  r_status r1 = classify c (r_value r1) /\
  r_status r2 = classify c (r_value r2) /\
  (r_value r1 == r_value r2 -> r_status r1 = r_status r2) /\
  (r_status r1 = "Good" <-> band_good c (r_value r1)) /\
  (r_status r1 = "Concern" <-> band_concern c (r_value r1)) /\
  (r_status r1 = "Malfunction" <-> band_malfunction c (r_value r1)).
Proof.
  intros E1 E2 H1 H2.
  destruct (generated_row _ _ _ _ _ _ _ _ E1 H1)
    as (_ & tr1 & k1 & _ & _ & ->).
  destruct (generated_row _ _ _ _ _ _ _ _ E2 H2)
    as (_ & tr2 & k2 & _ & _ & ->).
  cbn [reading_on r_status r_value].
  split; [reflexivity|]. split; [reflexivity|].
  split; [intros Ev; now rewrite Ev|].
  apply classify_in_band.
Qed.

(** C6.  Every value of a returned series lies in the range stated for its
    category: corrosion in [0, 1], pressure in [0, 100], temperature in
    [-50, 150], acoustic in [40, 120]. *)
Theorem generated_values_in_range (c : Category) (h i : Z)
    (sensor_id : option Z) (w : World) (df : DataFrame) (w' : World) :
  generate_sensor_data (category_name c) h i sensor_id w = Ok (df, w') ->
  forall r, In r (rows df) -> in_stated_range c (r_value r).
Proof.
  intros E r Hr.
  destruct (generated_row _ _ _ _ _ _ _ _ E Hr) as (_ & tr & k & _ & _ & ->).
  apply value_at_range.
Qed.

(** C7.  A reading has a [Type] tag exactly when the series was requested
    for corrosion, the tag is then one of [Uniform], [Pitting], [Galvanic],
    [Crevice], and the frames of the other categories have the columns
    [Time], [Sensor ID], [Value], [Status] only. *)
Theorem mechanism_tag_iff_corrosion (sensor_type : string) (h i : Z)
    (sensor_id : option Z) (w : World) (df : DataFrame) (w' : World) :
  generate_sensor_data sensor_type h i sensor_id w = Ok (df, w') ->
  (forall r, In r (rows df) ->
     (r_type r <> None <-> sensor_type = "corrosion") /\
     (forall tag, r_type r = Some tag ->
        In tag ["Uniform"; "Pitting"; "Galvanic"; "Crevice"])) /\
  (sensor_type = "corrosion" ->
     columns df = ["Time"; "Sensor ID"; "Value"; "Status"; "Type"]) /\
  (sensor_type <> "corrosion" ->
     columns df = ["Time"; "Sensor ID"; "Value"; "Status"]).
Proof.
  intros E.
  destruct (generate_inv _ _ _ _ _ _ _ E) as (c & tr & -> & Hc & ->).
  split; [|split].
  - intros r Hr. apply in_rows_frame_on in Hr as (k & _ & ->).
    cbn [reading_on r_type]. split.
    + destruct c; cbn [type_at category_name]; split; intros H;
        try reflexivity; try discriminate H; try congruence.
    + intros tag Ht. destruct c; cbn [type_at] in Ht; try discriminate Ht.
      inversion Ht. apply mechanism_at_known.
  - intros En. destruct c; try discriminate En. reflexivity.
  - intros En. destruct c; try reflexivity. now contradiction En.
Qed.

(** C9.  The [Sensor ID] column of a returned series repeats the
    [sensor_id] argument as it was passed, [None] included. *)
Theorem sensor_id_replicated (sensor_type : string) (h i : Z)
    (sensor_id : option Z) (w : World) (df : DataFrame) (w' : World) :
  generate_sensor_data sensor_type h i sensor_id w = Ok (df, w') ->
  Sensor_ID df = repeat sensor_id (length (rows df)) /\
  forall r, In r (rows df) -> r_sensor r = sensor_id.
Proof.
  intros E.
  destruct (generate_inv _ _ _ _ _ _ _ E) as (c & tr & -> & Hc & ->).
  split.
  - now rewrite rows_length.
  - intros r Hr. apply in_rows_frame_on in Hr as (k & _ & ->). reflexivity.
Qed.

Lemma window_in_calendar now h i :
  0 <= h <= 2628000 -> 1 <= i <= 26280000 ->
  year_2000 <= now <= year_2200 ->
  window_error now h i = None.
Proof.
  intros Hh Hi Hnow.
  unfold window_error, timedelta_error, datetime_error, stride_error,
    timestamp_error, timedelta_max_days, datetime_min, datetime_max,
    int64_max, timedelta_hours, minutes, year_2000, year_2200 in *.
  assert (0 <= h / 24 <= 109500)
    by (split; [apply Z.div_pos; lia|apply Z.div_le_upper_bound; lia]).
  repeat match goal with
         | |- context [?a <? ?b] => destruct (Z.ltb_spec a b); [lia|]
         end.
  reflexivity.
Qed.

(** C10, as stated, fails: for pressure and an interval of ten minutes, a
    window of 20000000 hours starts before the year 1 and the subtraction of
    line 42 raises [OverflowError]; with an interval of 200000000000 minutes
    the stride does not fit pandas' nanoseconds and [date_range] raises a
    [ValueError].  So the call does not return for every [hours >= 0] and
    [interval_minutes >= 1]. *)
Lemma generate_not_total :
  (working Pressure = true /\ 0 <= 20000000 /\ 1 <= 10 /\
   exists msg,
     generate_sensor_data_ranged "pressure" 20000000 10 (Some 3) demo_world
     = Err (OverflowError msg)) /\
  (working Pressure = true /\ 0 <= 1 /\ 1 <= 200000000000 /\
   exists msg,
     generate_sensor_data_ranged "pressure" 1 200000000000 (Some 3) demo_world
     = Err (ValueError msg)) /\
  ~ (forall c h i sensor_id w,
        working c = true -> 0 <= h -> 1 <= i ->
        exists df w',
          generate_sensor_data_ranged (category_name c) h i sensor_id w
          = Ok (df, w')).
Proof.
  split; [|split].
  - split; [reflexivity|]. split; [lia|]. split; [lia|].
    eexists. reflexivity.
  - split; [reflexivity|]. split; [lia|]. split; [lia|].
    eexists. reflexivity.
  - intros H.
    destruct (H Pressure 20000000 10 (Some 3) demo_world eq_refl
                ltac:(lia) ltac:(lia)) as (df & w' & E).
    discriminate E.
Qed.

(** C10, amended.  For the four working categories, a window of at most
    2628000 hours (300 years), an interval of at most 26280000 minutes (50
    years) and a clock that reads an instant of the years 2000 to 2200, no
    range check of the libraries fires and the call returns the frame the
    body builds, whatever the sensor identity and the random draws. *)
Theorem generate_total (c : Category) (h i : Z) (sensor_id : option Z)
    (w : World) :
  working c = true ->
  0 <= h <= 2628000 -> 1 <= i <= 26280000 ->
  year_2000 <= now_of w <= year_2200 ->
  exists df w',
    generate_sensor_data_ranged (category_name c) h i sensor_id w
    = Ok (df, w') /\
    generate_sensor_data (category_name c) h i sensor_id w = Ok (df, w').
Proof.
  intros Hc Hh Hi Hnow.
  assert (E : generate_sensor_data (category_name c) h i sensor_id w
              = Ok (frame_on c (time_grid (now_of w) h i) sensor_id w,
                    world_after c (span h i) w))
    by (apply generate_closed_form; [exact Hc|lia]).
  do 2 eexists. split; [|exact E].
  unfold generate_sensor_data_ranged.
  change (clock w (ticks w)) with (now_of w).
  now rewrite (window_in_calendar (now_of w) h i Hh Hi Hnow).
Qed.

(** ** Instances on a concrete world *)

Lemma status_determined_by_value_witness :
  exists df1 w1' df2 w2' r1 r2,
    generate_sensor_data "pressure" 1 10 (Some 3) demo_world = Ok (df1, w1') /\
    generate_sensor_data "pressure" 2 15 (Some 5) demo_world = Ok (df2, w2') /\
    In r1 (rows df1) /\ In r2 (rows df2) /\
    r_time r1 <> r_time r2 /\ r_sensor r1 <> r_sensor r2 /\
    r_value r1 == r_value r2 /\
    r_status r1 = classify Pressure (r_value r1) /\
    r_status r1 = r_status r2.
Proof.
  assert (H10 : 1 <= 10) by lia. assert (H15 : 1 <= 15) by lia.
  pose proof (generate_closed_form Pressure 1 10 (Some 3) demo_world
                eq_refl H10) as E1.
  pose proof (generate_closed_form Pressure 2 15 (Some 5) demo_world
                eq_refl H15) as E2.
  set (tr1 := time_grid (now_of demo_world) 1 10) in *.
  set (tr2 := time_grid (now_of demo_world) 2 15) in *.
  assert (H1 : In (reading_on Pressure tr1 (Some 3) demo_world 0)
                  (rows (frame_on Pressure tr1 (Some 3) demo_world)))
    by (vm_compute; left; reflexivity).
  assert (H2 : In (reading_on Pressure tr2 (Some 5) demo_world 0)
                  (rows (frame_on Pressure tr2 (Some 5) demo_world)))
    by (vm_compute; left; reflexivity).
  destruct (status_determined_by_value Pressure
              1 10 (Some 3) demo_world _ _ 2 15 (Some 5) demo_world _ _
              _ _ E1 E2 H1 H2) as (S1 & _ & Eq & _).
  do 6 eexists.
  split; [exact E1|]. split; [exact E2|].
  split; [exact H1|]. split; [exact H2|].
  split; [vm_compute; discriminate|]. split; [vm_compute; discriminate|].
  split; [reflexivity|]. split; [exact S1|]. apply Eq. reflexivity.
Defined.

Lemma generated_values_in_range_witness :
  exists df w',
    generate_sensor_data "pressure" 1 10 (Some 3) demo_world = Ok (df, w') /\
    length (rows df) = 7%nat /\
    forall r, In r (rows df) -> (0 <= r_value r /\ r_value r <= 100)%Q.
Proof.
  assert (H10 : 1 <= 10) by lia.
  pose proof (generate_closed_form Pressure 1 10 (Some 3) demo_world
                eq_refl H10) as E.
  do 2 eexists. split; [exact E|]. split; [vm_compute; reflexivity|].
  exact (generated_values_in_range Pressure 1 10 (Some 3) demo_world _ _ E).
Defined.

Lemma mechanism_tag_iff_corrosion_witness :
  exists df w',
    generate_sensor_data "corrosion" 1 25 None demo_world = Ok (df, w') /\
    length (rows df) = 3%nat /\
    columns df = ["Time"; "Sensor ID"; "Value"; "Status"; "Type"] /\
    forall r, In r (rows df) -> r_type r <> None.
Proof.
  assert (H25 : 1 <= 25) by lia.
  pose proof (generate_closed_form Corrosion 1 25 None demo_world
                eq_refl H25) as E.
  destruct (mechanism_tag_iff_corrosion "corrosion" 1 25 None demo_world _ _ E)
    as (Hrows & Hcols & _).
  do 2 eexists. split; [exact E|]. split; [vm_compute; reflexivity|].
  split; [exact (Hcols eq_refl)|].
  intros r Hr. apply (Hrows r Hr). reflexivity.
Defined.

Lemma sensor_id_replicated_witness :
  exists df w',
    generate_sensor_data "acoustic" 1 25 None demo_world = Ok (df, w') /\
    Sensor_ID df = [None; None; None] /\
    forall r, In r (rows df) -> r_sensor r = None.
Proof.
  assert (H25 : 1 <= 25) by lia.
  pose proof (generate_closed_form Acoustic 1 25 None demo_world
                eq_refl H25) as E.
  destruct (sensor_id_replicated "acoustic" 1 25 None demo_world _ _ E)
    as (Hcol & Hrows).
  do 2 eexists. split; [exact E|]. split; [vm_compute; reflexivity|].
  exact Hrows.
Defined.

Lemma generate_total_witness :
  working Temperature = true /\ 0 <= 24 <= 2628000 /\ 1 <= 10 <= 26280000 /\
  year_2000 <= now_of demo_world <= year_2200 /\
  exists df w',
    generate_sensor_data_ranged "temperature" 24 10 (Some 5) demo_world
    = Ok (df, w').
Proof.
  assert (H24 : 0 <= 24 <= 2628000) by lia.
  assert (H10 : 1 <= 10 <= 26280000) by lia.
  assert (Hnow : year_2000 <= now_of demo_world <= year_2200)
    by (unfold year_2000, year_2200; cbn; lia).
  split; [reflexivity|]. split; [exact H24|]. split; [exact H10|].
  split; [exact Hnow|].
  destruct (generate_total Temperature 24 10 (Some 5) demo_world eq_refl
              H24 H10 Hnow) as (df & w' & E & _).
  exists df, w'. exact E.
Defined.

(** ** The current-value reduction *)

Section TenFrames.
(** Ten frames of seven rows, the [j]-th for identity [j], with arbitrary
    cells. *)
Variable ft : nat -> nat -> Z.
Variable fv : nat -> nat -> Q.
Variable fs : nat -> nat -> string.
Variable fty : nat -> nat -> string.
Variable typed : bool.

Let frame (j : nat) : DataFrame :=
  mkDataFrame (map (ft j) (seq 0 7)) (repeat (Some (Z.of_nat j)) 7)
              (map (fv j) (seq 0 7)) (map (fs j) (seq 0 7))
              (if typed then Some (map (fty j) (seq 0 7)) else None).

Let last_row (j : nat) : Reading :=
  mkReading (ft j 6) (Some (Z.of_nat j)) (fv j 6) (fs j 6)
            (if typed then Some (fty j 6) else None).

Lemma groupby_last_ten_frames :
  groupby_last (pd_concat (map frame (seq 0 10))) = map last_row (seq 0 10).
Proof. destruct typed; vm_compute; reflexivity. Qed.
End TenFrames.

Lemma sensor_frames_from c w n s :
  working c = true ->
  mapM (fun i => generate_sensor_data (category_name c) 1 10 (Some i))
       (map Z.of_nat (seq s n)) (world_before c s w)
  = Ok (map (frame_of_call c w) (seq s n), world_before c (s + n) w).
Proof.
  intros Hc. revert s. induction n as [|n IH]; intros s.
  - cbn [seq map mapM]. now rewrite Nat.add_0_r.
  - cbn [seq map mapM].
    assert (H10 : 1 <= 10) by lia.
    rewrite (bind_Ok _ _ _ _ _
               (generate_closed_form c 1 10 (Some (Z.of_nat s))
                  (world_before c s w) Hc H10)).
    change (world_after c (span 1 10) (world_before c s w))
      with (world_before c (S s) w).
    rewrite (bind_Ok _ _ _ _ _ (IH (S s))).
    unfold ret. now rewrite Nat.add_succ_r.
Qed.

Lemma sensor_frames_closed_form c w :
  working c = true ->
  sensor_frames (category_name c) w
  = Ok (map (frame_of_call c w) (seq 0 10), world_before c 10 w).
Proof. intros Hc. exact (sensor_frames_from c w 10 0 Hc). Qed.

Lemma current_values_closed_form c w :
  working c = true ->
  current_values (category_name c) w
  = Ok (map (last_of_call c w) (seq 0 10), world_before c 10 w).
Proof.
  intros Hc. unfold current_values.
  rewrite (bind_Ok _ _ _ _ _ (sensor_frames_closed_form c w Hc)).
  unfold ret. f_equal. f_equal.
  pose (ft := fun j => time_at (now_of (world_before c j w)) 1 10).
  pose (fv := fun j => value_at c (world_before c j w)).
  pose (fs := fun j k => classify c (value_at c (world_before c j w) k)).
  pose (fty := fun j => mechanism_at (world_before c j w) 7).
  destruct c; try discriminate Hc.
  - exact (groupby_last_ten_frames ft fv fs fty true).
  - exact (groupby_last_ten_frames ft fv fs fty false).
  - exact (groupby_last_ten_frames ft fv fs fty false).
  - exact (groupby_last_ten_frames ft fv fs fty false).
Qed.

Lemma time_grid_length now h i : length (time_grid now h i) = span h i.
Proof. unfold time_grid. now rewrite length_map, length_seq. Qed.

Lemma span_hour_by_ten : span 1 10 = 7%nat.
Proof. reflexivity. Qed.

Lemma reading_on_grid_time c now h i sensor_id w k :
  (k < span h i)%nat ->
  r_time (reading_on c (time_grid now h i) sensor_id w k) = time_at now h i k.
Proof.
  intros Hk. cbn [reading_on r_time].
  apply nth_error_nth. now apply time_grid_nth.
Qed.

(** In the frame of one call the last row is the row of the greatest
    instant, and no other row has that instant. *)
Lemma last_of_call_latest c w j :
  rows (frame_of_call c w j)
  = removelast (rows (frame_of_call c w j)) ++ [last_of_call c w j] /\
  forall r, In r (rows (frame_of_call c w j)) ->
    r_sensor r = Some (Z.of_nat j) /\
    r_time r <= r_time (last_of_call c w j) /\
    (r_time r = r_time (last_of_call c w j) -> r = last_of_call c w j).
Proof.
  unfold frame_of_call, last_of_call.
  set (w' := world_before c j w). set (now := now_of w').
  split.
  - rewrite rows_frame_on, time_grid_length, span_hour_by_ten.
    change (seq 0 7) with (seq 0 6 ++ [6%nat]).
    rewrite map_app. cbn [map]. now rewrite removelast_last.
  - intros r Hr. apply in_rows_frame_on in Hr as (k & Hk & ->).
    rewrite time_grid_length, span_hour_by_ten in Hk.
    split; [reflexivity|].
    rewrite !reading_on_grid_time by (rewrite span_hour_by_ten; lia).
    unfold time_at, minutes. split; [lia|].
    intros E. assert (k = 6%nat) as -> by lia. reflexivity.
Qed.



(** * Further properties: the callbacks *)

(** ** Marker colours *)

Lemma status_color_cases x :
  (x = "Good" /\ status_color x = "green") \/
  (x = "Concern" /\ status_color x = "orange") \/
  (x <> "Good" /\ x <> "Concern" /\ status_color x = "red").
Proof.
  unfold status_color.
  destruct (String.eqb_spec x "Good") as [->|HG]; [now left|].
  destruct (String.eqb_spec x "Concern") as [->|HC]; [right; now left|].
  right; right. now repeat split.
Qed.

Lemma color_of_classify c v :
  band_of_color c (status_color (classify c v)) v.
Proof.
  destruct (classify_in_band c v) as (G & C & B).
  pose proof (classify_status c v) as S. cbn [In] in S.
  unfold band_of_color.
  destruct S as [E|[E|[E|[]]]]; rewrite <- E; cbn.
  - left. split; [reflexivity|]. now apply G.
  - right; left. split; [reflexivity|]. now apply C.
  - right; right. split; [reflexivity|]. now apply B.
Qed.

(** X1.  The colour of a marker is green, orange or red; anything that is
    neither [Good] nor [Concern] is drawn red; and on the status of a value
    the colour tells the band: green exactly for the good band, orange
    exactly for the concern band, red exactly for the malfunction band. *)
Theorem status_color_tells_band (c : Category) (v : Q) (x : string) :
  In (status_color x) ["green"; "orange"; "red"] /\
  (status_color x = "green" <-> x = "Good") /\
  (status_color x = "orange" <-> x = "Concern") /\
  (status_color x = "red" <-> x <> "Good" /\ x <> "Concern") /\
  (status_color (classify c v) = "green" <-> band_good c v) /\
  (status_color (classify c v) = "orange" <-> band_concern c v) /\
  (status_color (classify c v) = "red" <-> band_malfunction c v).
Proof.
  assert (Hx : forall y,
             (status_color y = "green" <-> y = "Good") /\
             (status_color y = "orange" <-> y = "Concern") /\
             (status_color y = "red" <-> y <> "Good" /\ y <> "Concern")).
  { intros y.
    destruct (status_color_cases y) as [[-> E]|[[-> E]|(H1 & H2 & E)]];
      rewrite ?E; repeat split; intros; try discriminate; try tauto;
      try congruence. }
  destruct (Hx x) as (Xg & Xo & Xr).
  destruct (Hx (classify c v)) as (Cg & Co & Cr).
  destruct (classify_in_band c v) as (G & C & B).
  pose proof (classify_status c v) as S. cbn [In] in S.
  split.
  { destruct (status_color_cases x) as [[_ E]|[[_ E]|(_ & _ & E)]];
      rewrite E; cbn; auto. }
  split; [exact Xg|]. split; [exact Xo|]. split; [exact Xr|].
  split; [exact (iff_trans Cg G)|]. split; [exact (iff_trans Co C)|].
  apply (iff_trans Cr). apply (fun H => iff_trans H B). split.
  - intros [H1 H2]. destruct S as [E|[E|[E|[]]]]; congruence.
  - intros E. rewrite E. split; discriminate.
Qed.

(** ** The bars of the bar charts *)

Lemma combine_columns {A B C D} (f : A -> B) (g : A -> C) (h : A -> D) l :
  combine (combine (map f l) (map g l)) (map h l)
  = map (fun a => (f a, g a, h a)) l.
Proof. induction l as [|a l IH]; [reflexivity|]. cbn. now rewrite IH. Qed.

Lemma combine_one_color {A B C} (f : A -> B) (g : A -> C) (color : string) l :
  combine (combine (map f l) (map g l)) (repeat color (length (map f l)))
  = map (fun a => (f a, g a, color)) l.
Proof. induction l as [|a l IH]; [reflexivity|]. cbn. now rewrite IH. Qed.

Lemma filter_status_partition (l : list Reading) :
  (forall r, In r l -> In (r_status r) ["Good"; "Concern"; "Malfunction"]) ->
  Permutation
    (filter (fun r => (r_status r =? "Good")%string) l
     ++ filter (fun r => (r_status r =? "Concern")%string) l
     ++ filter (fun r => (r_status r =? "Malfunction")%string) l)
    l.
Proof.
  induction l as [|r l IH]; intros H; [constructor|].
  assert (IH' := IH (fun r' Hr' => H r' (or_intror Hr'))).
  destruct (H r (or_introl eq_refl)) as [E|[E|[E|[]]]];
    cbn [filter]; rewrite <- E;
    change ("Good" =? "Good")%string with true;
    change ("Good" =? "Concern")%string with false;
    change ("Good" =? "Malfunction")%string with false;
    change ("Concern" =? "Good")%string with false;
    change ("Concern" =? "Concern")%string with true;
    change ("Concern" =? "Malfunction")%string with false;
    change ("Malfunction" =? "Good")%string with false;
    change ("Malfunction" =? "Concern")%string with false;
    change ("Malfunction" =? "Malfunction")%string with true;
    cbv iota.
  - cbn [app]. now constructor.
  - symmetry. apply Permutation_cons_app. now symmetry.
  - rewrite app_assoc. symmetry. apply Permutation_cons_app.
    rewrite <- app_assoc. now symmetry.
Qed.

Lemma last_of_call_fields c w j :
  r_sensor (last_of_call c w j) = Some (Z.of_nat j) /\
  r_status (last_of_call c w j) = classify c (r_value (last_of_call c w j)) /\
  in_stated_range c (r_value (last_of_call c w j)).
Proof.
  unfold last_of_call. cbn [reading_on r_sensor r_status r_value].
  repeat split; apply value_at_range.
Qed.

Lemma stated_range_is_value_range c v :
  in_stated_range c v ->
  (fst (value_range c) <= v /\ v <= snd (value_range c))%Q.
Proof. destruct c; cbn; tauto. Qed.

(** The bars of every bar chart are, up to their order, the bars of the
    current values. *)
Lemma bar_chart_closed_form c callback w :
  bar_chart_callback c = Some callback ->
  exists fig,
    callback w = Ok (fig, world_before c 10 w) /\
    Permutation (figure_bars fig)
                (map bar_of (map (last_of_call c w) (seq 0 10))) /\
    yaxis_range (layout fig) = value_range c.
Proof.
  intros Hcb.
  assert (Hc : working c = true) by (destruct c; [reflexivity..|discriminate]).
  pose proof (current_values_closed_form c w Hc) as E.
  set (current := map (last_of_call c w) (seq 0 10)) in *.
  destruct c; inversion Hcb; subst callback; eexists.
  1, 3, 4: split;
    [ unfold update_corrosion_bar_chart_figure,
        update_temperature_bar_chart_figure, update_acoustic_bar_chart_figure;
      rewrite (bind_Ok _ _ _ _ _ E); reflexivity
    | split; [|reflexivity];
      unfold figure_bars, single_bar_figure;
      cbn [data flat_map bars_of bar_colors bar_marker_color bar_x bar_y];
      rewrite app_nil_r, !map_map, combine_columns; reflexivity ].
  split;
    [ unfold update_pressure_bar_chart_figure;
      rewrite (bind_Ok _ _ _ _ _ E); reflexivity |].
  split; [|reflexivity].
  unfold figure_bars.
  cbn [data combine fold_left app flat_map pressure_trace bars_of bar_colors
       bar_marker_color bar_x bar_y].
  rewrite !combine_one_color, app_nil_r.
  assert (Hst : forall r, In r current ->
                  In (r_status r) ["Good"; "Concern"; "Malfunction"]).
  { intros r Hr. apply in_map_iff in Hr as (j & <- & _).
    destruct (last_of_call_fields Pressure w j) as (_ & -> & _).
    apply classify_status. }
  rewrite <- (filter_status_partition current Hst) at 4.
  rewrite !map_app.
  repeat apply Permutation_app; apply Permutation_refl'; apply map_ext_in;
    intros r Hr; apply filter_In in Hr as [_ Hr];
    apply String.eqb_eq in Hr; unfold bar_of; now rewrite Hr.
Qed.


(** ** The traces of the pressure chart *)

Lemma combine_pairs {A B C} (f : A -> B) (g : A -> C) l :
  combine (map f l) (map g l) = map (fun a => (f a, g a)) l.
Proof. induction l as [|a l IH]; [reflexivity|]. cbn. now rewrite IH. Qed.

(** A current reading is drawn in the trace of a status exactly when it has
    that status. *)
Lemma in_status_trace (current : list Reading) (status : string) (r : Reading) :
  (forall r', In r' current -> r_status r' = classify Pressure (r_value r')) ->
  In r current ->
  let filtered := filter (fun r' => (r_status r' =? status)%string) current in
  In (r_sensor r, r_value r)
     (combine (map r_sensor filtered) (map r_value filtered))
  <-> r_status r = status.
Proof.
  intros Hst Hr filtered. rewrite combine_pairs, in_map_iff. split.
  - intros (r' & E & Hr'). apply filter_In in Hr' as [Hc Hs].
    apply String.eqb_eq in Hs. inversion E as [[E1 E2]].
    now rewrite (Hst r Hr), <- E2, <- (Hst r' Hc).
  - intros E. exists r. split; [reflexivity|].
    apply filter_In. split; [exact Hr|]. now apply String.eqb_eq.
Qed.


(** ** The details callbacks *)

Lemma getitem_raises p key e : getitem p key = Raised e -> e = KeyError key.
Proof.
  induction p as [|[k v] p IH]; cbn; [intros E; now inversion E|].
  destruct (k =? key)%string; [discriminate|exact IH].
Qed.

Lemma span_day_by_ten : span 24 10 = 145%nat.
Proof. reflexivity. Qed.

Ltac unfold_details :=
  unfold display_corrosion_sensor_details, display_pressure_sensor_details,
    display_temperature_sensor_details, display_acoustic_sensor_details,
    display_details.

Lemma day_grid_ends now :
  time_at now 24 10 0 = now - timedelta_hours 24 /\
  time_at now 24 10 144 = now.
Proof. unfold time_at, timedelta_hours, minutes. lia. Qed.

(** What a details callback shows for the identity of the clicked bar. *)
Lemma details_chart_closed_form c callback points sensor_id w :
  details_callback c = Some callback ->
  clicked_sensor points = Done sensor_id ->
  exists shown fig,
    callback (Some points) w = Done (Some shown, world_after c 145 w) /\
    chart_of shown = Some fig /\
    data fig
    = [ScatterTrace
         (mkScatter (time_grid (now_of w) 24 10)
            (map (value_at c w) (seq 0 145)) "lines+markers"
            (map status_color
               (map (fun k => classify c (value_at c w k)) (seq 0 145))))] /\
    yaxis_range (layout fig) = value_range c /\
    title (layout fig)
    = (title_kind c ++ " Sensor " ++ py_str sensor_id
       ++ " - 24 Hours Data")%string.
Proof.
  intros Hcb Hx.
  assert (Hc : working c = true) by (destruct c; [reflexivity..|discriminate]).
  assert (H10 : 1 <= 10) by lia.
  pose proof (generate_closed_form c 24 10 (Some sensor_id) w Hc H10) as E.
  rewrite span_day_by_ten in E.
  destruct c; inversion Hcb; subst callback; unfold_details;
    rewrite Hx; cbv beta; unfold py_int; cbn [category_name] in E; rewrite E;
    do 2 eexists; (split; [reflexivity|]); now repeat split.
Qed.


(** ** The line chart of a clicked sensor *)


(** ** The corrosion details *)

Lemma unique_In cells x : In x (unique cells) <-> In x cells.
Proof.
  induction cells as [|y cells IH]; [reflexivity|].
  cbn [unique In]. rewrite filter_In, IH. split.
  - intros [E|[H _]]; auto.
  - intros [E|H]; [now left|].
    destruct (String.eqb_spec x y) as [->|Hxy]; [now left|].
    right. split; [exact H|reflexivity].
Qed.

Lemma unique_NoDup cells : NoDup (unique cells).
Proof.
  induction cells as [|y cells IH]; [constructor|].
  cbn [unique]. constructor.
  - rewrite filter_In. intros [_ H]. now rewrite String.eqb_refl in H.
  - now apply NoDup_filter.
Qed.

Lemma fold_min_least cells x :
  (forall y, In y cells -> x <= y) -> fold_left Z.min cells x = x.
Proof.
  revert x. induction cells as [|a cells IH]; intros x H; [reflexivity|].
  cbn [fold_left]. rewrite Z.min_l by (apply H; now left).
  apply IH. intros y Hy. apply H. now right.
Qed.

Lemma fold_max_greatest cells x m :
  In m (x :: cells) -> (forall y, In y (x :: cells) -> y <= m) ->
  fold_left Z.max cells x = m.
Proof.
  revert x. induction cells as [|a cells IH]; intros x Hm Hb.
  - destruct Hm as [->|[]]. reflexivity.
  - cbn [fold_left]. apply IH.
    + pose proof (Hb x (or_introl eq_refl)).
      pose proof (Hb a (or_intror (or_introl eq_refl))).
      destruct Hm as [<-|[<-|Hm]].
      * left. lia.
      * left. lia.
      * now right.
    + intros y [<-|Hy].
      * pose proof (Hb x (or_introl eq_refl)).
        pose proof (Hb a (or_intror (or_introl eq_refl))). lia.
      * apply Hb. now right; right.
Qed.

(** The least and the greatest instant of a day by steps of ten minutes. *)
Lemma day_grid_min_max now :
  series_min (time_grid now 24 10) = Some (now - timedelta_hours 24) /\
  series_max (time_grid now 24 10) = Some now.
Proof.
  destruct (day_grid_ends now) as [E0 E144].
  assert (Hin : forall y, In y (time_grid now 24 10) ->
                  exists k, (k < 145)%nat /\ y = time_at now 24 10 k).
  { intros y Hy. unfold time_grid in Hy. rewrite span_day_by_ten in Hy.
    apply in_map_iff in Hy as (k & <- & Hk). apply in_seq in Hk.
    exists k. split; [lia|reflexivity]. }
  assert (Hgrid : time_grid now 24 10
                  = time_at now 24 10 0
                    :: map (time_at now 24 10) (seq 1 144)) by reflexivity.
  split.
  - rewrite Hgrid at 1. cbn [series_min]. f_equal. rewrite <- E0.
    apply fold_min_least. intros y Hy.
    destruct (Hin y) as (k & _ & ->); [rewrite Hgrid; now right|].
    unfold time_at, minutes. lia.
  - rewrite Hgrid at 1. cbn [series_max]. f_equal.
    apply fold_max_greatest.
    + change (In now (time_grid now 24 10)). rewrite <- E144 at 1.
      unfold time_grid. rewrite span_day_by_ten. apply in_map, in_seq. lia.
    + change (forall y, In y (time_grid now 24 10) -> y <= now).
      intros y Hy. destruct (Hin y Hy) as (k & Hk & ->).
      rewrite <- E144 at 2. unfold time_at, minutes. lia.
Qed.


(** ** Windows that end before they start *)

Lemma span_negative h i : h < 0 -> 1 <= i -> span h i = 0%nat.
Proof.
  intros Hh Hi. unfold span.
  assert (timedelta_hours h / minutes i < 0).
  { apply Z.div_lt_upper_bound; [now apply minutes_pos|].
    unfold timedelta_hours. lia. }
  lia.
Qed.

(** X7.  With a negative number of hours the requested range starts after
    it ends: whatever frame a call then returns is empty, with its columns
    (the [Type] column for corrosion only), and the call took no draw from
    either generator. *)
Theorem generate_negative_window (c : Category) (h i : Z)
    (sensor_id : option Z) (w : World) (df : DataFrame) (w' : World) :
  h < 0 -> 1 <= i ->
  generate_sensor_data (category_name c) h i sensor_id w = Ok (df, w') ->
  rows df = [] /\
  Time df = [] /\ Sensor_ID df = [] /\ Value df = [] /\ Status df = [] /\
  (Type_ df = if category_name c =? "corrosion" then Some [] else None)%string /\
  np_pos w' = np_pos w /\ py_pos w' = py_pos w.
Proof.
  intros Hh Hi E.
  destruct (generate_inv _ _ _ _ _ _ _ E) as (c' & tr & En & Hc & _).
  apply category_name_inj in En. subst c'.
  rewrite (generate_closed_form c h i sensor_id w Hc Hi) in E.
  injection E as <- <-.
  rewrite rows_frame_on. unfold frame_on, time_grid, world_after.
  rewrite (span_negative h i Hh Hi).
  cbn [seq map length repeat Time Sensor_ID Value Status Type_ np_pos py_pos].
  repeat split; destruct c; try reflexivity; try discriminate Hc;
    now rewrite ?Nat.add_0_r.
Qed.

(** ** What a call consumes *)

Lemma generate_inv_world sensor_type h i sensor_id w df w' :
  generate_sensor_data sensor_type h i sensor_id w = Ok (df, w') ->
  exists c time_range,
    sensor_type = category_name c /\ working c = true /\
    df = frame_on c time_range sensor_id w /\
    w' = world_after c (length time_range) w.
Proof.
  rewrite generate_sensor_data_eq.
  destruct (pd_date_range _ _ _) as [time_range|e]; [|discriminate].
  unfold outcome. destruct (category_of sensor_type) as [c|] eqn:Ec;
    [|discriminate].
  destruct (working c) eqn:Hc; [|discriminate].
  intros E. inversion E; subst. exists c, time_range.
  split; [now apply category_of_Some|]. now repeat split.
Qed.

(** X8.  A call that returns a frame reads the clock once, takes from
    numpy's generator one draw per reading (two for corrosion: the values
    first, then the mechanisms) and leaves Python's own generator alone.
    The [k]-th value is [low + (high - low) * u] for the [k]-th pending
    draw [u], up to the rounding of the float (within [10^-9]), and for
    corrosion the [k]-th mechanism comes from the draw [n + k], where [n] is
    the number of readings: no draw is used for two cells. *)
Theorem generate_draws (c : Category) (h i : Z) (sensor_id : option Z)
    (w : World) (df : DataFrame) (w' : World) :
  generate_sensor_data (category_name c) h i sensor_id w = Ok (df, w') ->
  let n := length (rows df) in
  w' = mkWorld (clock w) (S (ticks w)) (np_stream w)
               (np_pos w + (match c with Corrosion => 2 | _ => 1 end) * n)%nat
               (py_stream w) (py_pos w) /\
  forall k r, nth_error (rows df) k = Some r ->
    let drawn :=
      (fst (value_range c)
       + (snd (value_range c) - fst (value_range c))
         * unit_sample (np_stream w (np_pos w + k)%nat))%Q in
    (drawn - (1 # 1000000000) <= r_value r /\
     r_value r <= drawn + (1 # 1000000000))%Q /\
    (c = Corrosion ->
     r_type r
     = Some (nth (Z.to_nat (np_stream w (np_pos w + n + k)%nat mod 4))
                 ["Uniform"; "Pitting"; "Galvanic"; "Crevice"] "Uniform")).
Proof.
  intros E n.
  destruct (generate_inv_world _ _ _ _ _ _ _ E)
    as (c' & tr & En & Hc & Hdf & Hw).
  apply category_name_inj in En. subst c' df w'.
  assert (Hn : n = length tr) by (unfold n; apply rows_length).
  rewrite Hn. split.
  - unfold world_after. f_equal. destruct c; try discriminate Hc; lia.
  - intros k r Hk. rewrite rows_frame_on in Hk.
    rewrite nth_error_map, nth_error_seq in Hk.
    destruct (Nat.ltb_spec k (length tr)); [|discriminate].
    cbn in Hk. inversion Hk. subst r.
    cbv zeta. cbn [reading_on r_value r_type]. unfold value_at.
    split; [|intros ->; reflexivity].
    generalize (fst (value_range c)
                + (snd (value_range c) - fst (value_range c))
                  * unit_sample (np_stream w (np_pos w + k)%nat))%Q.
    intros q. split; lra.
Qed.

(** ** Grouping any frame by identity *)

Lemma insert_key_In k keys x : In x (insert_key k keys) <-> x = k \/ In x keys.
Proof.
  induction keys as [|k' keys IH]; cbn [insert_key In]; [intuition|].
  destruct (Z.ltb_spec k k'); [cbn [In]; intuition|].
  destruct (Z.eqb_spec k k') as [->|Hne]; cbn [In]; [intuition|].
  rewrite IH. intuition.
Qed.

Lemma insert_key_sorted k keys :
  StronglySorted Z.lt keys -> StronglySorted Z.lt (insert_key k keys).
Proof.
  induction 1 as [|k' keys Hs IH Hall]; cbn [insert_key].
  - repeat constructor.
  - destruct (Z.ltb_spec k k') as [Hlt|Hge].
    + constructor; [now constructor|]. constructor; [exact Hlt|].
      eapply Forall_impl; [|exact Hall]. intros a Ha. cbv beta in *. lia.
    + destruct (Z.eqb_spec k k') as [->|Hne]; [now constructor|].
      constructor; [exact IH|].
      apply Forall_forall. intros x Hx. apply insert_key_In in Hx as [->|Hx].
      * lia.
      * now apply (proj1 (Forall_forall _ _) Hall).
Qed.

Lemma group_keys_In ids k : In k (group_keys ids) <-> In (Some k) ids.
Proof.
  induction ids as [|[k'|] ids IH]; cbn [group_keys fold_right In].
  - reflexivity.
  - fold (group_keys ids). rewrite insert_key_In, IH. split.
    + intros [->|H]; auto.
    + intros [E|H]; [left; congruence|now right].
  - fold (group_keys ids). rewrite IH. split; [now right|].
    intros [E|H]; [discriminate|exact H].
Qed.

Lemma group_keys_sorted ids : StronglySorted Z.lt (group_keys ids).
Proof.
  induction ids as [|[k|] ids IH]; cbn [group_keys fold_right];
    [constructor|now apply insert_key_sorted|exact IH].
Qed.

Lemma has_key_true k r : has_key k r = true <-> r_sensor r = Some k.
Proof.
  unfold has_key. destruct (r_sensor r) as [k'|]; [|split; discriminate].
  rewrite Z.eqb_eq. split; congruence.
Qed.

(** The last element that satisfies a test, and what follows it. *)
Lemma last_of_filter {A} (p : A -> bool) (l : list A) :
  (exists x, In x l /\ p x = true) ->
  exists r before after,
    last (map Some (filter p l)) None = Some r /\
    l = before ++ r :: after /\ p r = true /\
    forall x, In x after -> p x = false.
Proof.
  induction l as [|x l IH] using rev_ind; intros (y & Hy & Hp).
  - destruct Hy.
  - rewrite filter_app. cbn [filter]. destruct (p x) eqn:Hx.
    + exists x, l, []. rewrite map_app. cbn [map].
      rewrite last_last. repeat split; [exact Hx|intros ? []].
    + rewrite app_nil_r.
      apply in_app_or in Hy as [Hy|[<-|[]]]; [|congruence].
      destruct (IH (ex_intro _ y (conj Hy Hp)))
        as (r & before & after & El & -> & Hr & Hafter).
      exists r, before, (after ++ [x]). split; [exact El|].
      split; [now rewrite <- app_assoc|]. split; [exact Hr|].
      intros z Hz. apply in_app_or in Hz as [Hz|[<-|[]]]; auto.
Qed.

Lemma pd_DataFrame_inv time sensor value status type_ df :
  pd_DataFrame time sensor value status type_ = Ok df ->
  df = mkDataFrame time sensor value status type_ /\
  length sensor = length time /\ length value = length time /\
  length status = length time /\
  match type_ with Some l => length l = length time | None => True end.
Proof.
  unfold pd_DataFrame.
  destruct (_ && _)%bool eqn:Hlen; [|discriminate].
  intros E. inversion E. split; [reflexivity|].
  repeat (apply andb_prop in Hlen as [Hlen ?]).
  repeat split; try now apply Nat.eqb_eq.
  destruct type_; [now apply Nat.eqb_eq|exact I].
Qed.

(** In a frame built from columns of one length, the identities of the rows
    are the cells of the [Sensor ID] column. *)
Lemma rows_sensors time sensor value status type_ df :
  pd_DataFrame time sensor value status type_ = Ok df ->
  map r_sensor (rows df) = Sensor_ID df.
Proof.
  intros E.
  destruct (pd_DataFrame_inv _ _ _ _ _ _ E) as (-> & Hs & Hv & Hst & Hty).
  set (g := fun i =>
         mkReading (nth i time 0) (nth i sensor None) (nth i value 0%Q)
                   (nth i status "")
                   (option_map (fun l => nth i l "") type_)).
  unfold rows. cbn [Time Sensor_ID].
  rewrite (flat_map_cells _ g).
  - rewrite map_map. cbn [g r_sensor]. rewrite <- Hs. apply map_nth_seq.
  - intros i Hi. apply in_seq in Hi. unfold iloc.
    cbn [Time Sensor_ID Value Status Type_].
    rewrite (nth_error_nth' time 0) by lia.
    rewrite (nth_error_nth' sensor None) by lia.
    rewrite (nth_error_nth' value 0%Q) by lia.
    rewrite (nth_error_nth' status "") by lia.
    destruct type_ as [l|]; [|reflexivity].
    rewrite (nth_error_nth' l "") by lia. reflexivity.
Qed.

(** X9.  Grouping a frame built from columns of one length by identity and
    taking the last of each group gives one row per identity that occurs in
    the frame, rows without an identity being left out; the rows come in
    strictly increasing order of identity; and each is the last row of the
    frame with its identity. *)
Theorem groupby_last_groups (time : list Z) (sensor : list (option Z))
    (value : list Q) (status : list string) (type_ : option (list string))
    (df : DataFrame) :
  pd_DataFrame time sensor value status type_ = Ok df ->
  exists keys,
    map r_sensor (groupby_last df) = map Some keys /\
    StronglySorted Z.lt keys /\
    (forall k, In k keys <-> exists r, In r (rows df) /\ r_sensor r = Some k) /\
    forall r, In r (groupby_last df) ->
      exists before after,
        rows df = before ++ r :: after /\
        forall r', In r' after -> r_sensor r' <> r_sensor r.
Proof.
  intros E. pose proof (rows_sensors _ _ _ _ _ _ E) as Hids.
  assert (Hkeys : forall k, In k (group_keys (Sensor_ID df)) <->
                    exists r, In r (rows df) /\ r_sensor r = Some k).
  { intros k. rewrite group_keys_In, <- Hids, in_map_iff. split.
    - intros (r & Er & Hr). now exists r.
    - intros (r & Hr & Er). now exists r. }
  assert (Hgroup : forall k, In k (group_keys (Sensor_ID df)) ->
            exists r before after,
              last (map Some (filter (has_key k) (rows df))) None = Some r /\
              rows df = before ++ r :: after /\ r_sensor r = Some k /\
              forall x, In x after -> r_sensor x <> Some k).
  { intros k Hk. apply Hkeys in Hk as (r0 & Hr0 & Er0).
    destruct (last_of_filter (has_key k) (rows df))
      as (r & before & after & El & Erows & Hr & Hafter).
    { exists r0. split; [exact Hr0|now apply has_key_true]. }
    exists r, before, after. split; [exact El|]. split; [exact Erows|].
    split; [now apply has_key_true|].
    intros x Hx Ex. apply has_key_true in Ex.
    now rewrite (Hafter x Hx) in Ex. }
  exists (group_keys (Sensor_ID df)).
  split; [|split; [apply group_keys_sorted|split; [exact Hkeys|]]].
  - unfold groupby_last.
    assert (Hsub : forall keys,
              incl keys (group_keys (Sensor_ID df)) ->
              map r_sensor
                (flat_map
                   (fun k =>
                      opt_list
                        (last (map Some (filter (has_key k) (rows df))) None))
                   keys)
              = map Some keys).
    { induction keys as [|k keys IH]; intros Hincl; [reflexivity|].
      cbn [flat_map map]. rewrite map_app, IH
        by (intros k' Hk'; apply Hincl; now right).
      destruct (Hgroup k (Hincl k (or_introl eq_refl)))
        as (r & _ & _ & -> & _ & Er & _).
      cbn [opt_list map app]. now rewrite Er. }
    apply Hsub, incl_refl.
  - intros r Hr. unfold groupby_last in Hr.
    apply in_flat_map in Hr as (k & Hk & Hr).
    destruct (Hgroup k Hk) as (r' & before & after & El & Erows & Er & Hafter).
    rewrite El in Hr. destruct Hr as [<-|[]].
    exists before, after. split; [exact Erows|].
    intros x Hx. rewrite Er. now apply Hafter.
Qed.

(** ** Titles *)

Lemma append_cancel_l (p s t : string) : (p ++ s = p ++ t)%string -> s = t.
Proof.
  induction p as [|a p IH]; cbn; intros H; [exact H|].
  inversion H. now apply IH.
Qed.

Lemma length_append (s t : string) :
  String.length (s ++ t) = (String.length s + String.length t)%nat.
Proof. induction s as [|a s IH]; cbn; [reflexivity|now rewrite IH]. Qed.

Lemma append_cancel_r (s1 s2 t : string) :
  (s1 ++ t = s2 ++ t)%string -> s1 = s2.
Proof.
  revert s2. induction s1 as [|a s1 IH]; intros [|b s2] H.
  - reflexivity.
  - apply (f_equal String.length) in H. cbn in H.
    rewrite length_append in H. lia.
  - apply (f_equal String.length) in H. cbn in H.
    rewrite length_append in H. lia.
  - cbn in H. inversion H. f_equal. now apply IH.
Qed.

(** The decimal text of an integer reads back as that integer. *)
Lemma py_str_reads_back n :
  option_map Z.of_int (NilZero.int_of_string (py_str n)) = Some n.
Proof.
  unfold py_str. rewrite NilZero.isi.
  - cbn [option_map]. now rewrite DecimalZ.of_to.
  - destruct n; cbn; try discriminate.
    intros E. inversion E as [H]. now apply Unsigned.to_uint_nonnil in H.
  - destruct n; cbn; try discriminate.
    intros E. inversion E as [H]. now apply Unsigned.to_uint_nonnil in H.
Qed.

Lemma py_str_inj a b : py_str a = py_str b -> a = b.
Proof.
  intros E. pose proof (py_str_reads_back a) as Ha.
  rewrite E, py_str_reads_back in Ha. congruence.
Qed.


(** ** Instances of the callbacks on the concrete world *)





Lemma generate_negative_window_witness :
  exists df w',
    -1 < 0 /\ 1 <= 10 /\
    generate_sensor_data "pressure" (-1) 10 (Some 3) demo_world = Ok (df, w') /\
    rows df = [] /\ np_pos w' = 0%nat.
Proof.
  assert (Hh : -1 < 0) by lia. assert (Hi : 1 <= 10) by lia.
  pose proof (generate_closed_form Pressure (-1) 10 (Some 3) demo_world
                eq_refl Hi) as E.
  destruct (generate_negative_window Pressure (-1) 10 (Some 3) demo_world
              _ _ Hh Hi E) as (Hrows & _ & _ & _ & _ & _ & Hp & _).
  do 2 eexists. split; [exact Hh|]. split; [exact Hi|]. split; [exact E|].
  split; [exact Hrows|exact Hp].
Defined.

Lemma generate_draws_witness :
  exists df w',
    generate_sensor_data "corrosion" 1 25 None demo_world = Ok (df, w') /\
    length (rows df) = 3%nat /\
    np_pos w' = 6%nat /\ py_pos w' = 0%nat /\ ticks w' = 1%nat.
Proof.
  assert (H25 : 1 <= 25) by lia.
  pose proof (generate_closed_form Corrosion 1 25 None demo_world
                eq_refl H25) as E.
  destruct (generate_draws Corrosion 1 25 None demo_world _ _ E) as [Hw _].
  assert (Hn : length (rows (frame_on Corrosion
                               (time_grid (now_of demo_world) 1 25) None
                               demo_world)) = 3%nat)
    by (rewrite rows_length; reflexivity).
  rewrite Hn in Hw.
  do 2 eexists. split; [exact E|]. split; [exact Hn|].
  rewrite Hw. repeat split.
Defined.

Lemma groupby_last_groups_witness :
  exists df,
    pd_DataFrame [10; 20; 30; 40] [Some 2; None; Some 1; Some 2]
                 [1; 2; 3; 4]%Q ["Good"; "Good"; "Concern"; "Good"] None
    = Ok df /\
    map r_time (groupby_last df) = [30; 40] /\
    exists keys,
      map r_sensor (groupby_last df) = map Some keys /\
      StronglySorted Z.lt keys.
Proof.
  eexists. split; [reflexivity|]. split; [reflexivity|].
  destruct (groupby_last_groups
              [10; 20; 30; 40] [Some 2; None; Some 1; Some 2]
              [1; 2; 3; 4]%Q ["Good"; "Good"; "Concern"; "Good"] None _
              eq_refl) as (keys & Hk & Hs & _).
  exists keys. split; [exact Hk|exact Hs].
Defined.


(** ** Instants and the window *)

(** X11.  For a window of [h >= 0] hours and an interval of [i >= 1]
    minutes, no reading of a returned series is stamped before the start of
    the window or after [now]; every instant is a whole number of intervals
    after the start; and the series is complete: one more interval after
    its last instant would pass [now]. *)
Theorem generate_instants_in_window (c : Category) (h i : Z)
    (sensor_id : option Z) (w : World) (df : DataFrame) (w' : World) :
  0 <= h -> 1 <= i ->
  generate_sensor_data (category_name c) h i sensor_id w = Ok (df, w') ->
  (forall r, In r (rows df) ->
     now_of w - timedelta_hours h <= r_time r <= now_of w /\
     exists k, 0 <= k /\
               r_time r = now_of w - timedelta_hours h + k * minutes i) /\
  now_of w < last (map r_time (rows df)) 0 + minutes i.
Proof.
  intros Hh Hi E.
  destruct (generate_inv _ _ _ _ _ _ _ E) as (c' & tr & En & Hc & _).
  apply category_name_inj in En. subst c'.
  rewrite (generate_closed_form c h i sensor_id w Hc Hi) in E.
  inversion E. subst df w'. clear E.
  pose proof (span_hours h i Hh Hi) as Hn.
  assert (Hq : 0 <= h * 60 / i) by (apply Z.div_pos; lia).
  pose proof (Z.mul_div_le (h * 60) i ltac:(lia)) as Hle.
  pose proof (Z.mod_pos_bound (h * 60) i ltac:(lia)) as Hmod.
  split.
  - intros r Hr. apply in_rows_frame_on in Hr as (k & Hk & ->).
    rewrite time_grid_length in Hk.
    rewrite reading_on_grid_time by exact Hk.
    rewrite Hn in Hk. unfold time_at, timedelta_hours, minutes. split.
    + assert (Z.of_nat k <= h * 60 / i) by lia. nia.
    + exists (Z.of_nat k). split; lia.
  - rewrite rows_times, (time_grid_last _ h i _ Hn).
    rewrite (last_instant h i (now_of w) Hh Hi). unfold minutes. lia.
Qed.

Lemma generate_instants_in_window_witness :
  exists df w',
    0 <= 1 /\ 1 <= 7 /\
    generate_sensor_data "pressure" 1 7 (Some 3) demo_world = Ok (df, w') /\
    now_of demo_world < last (map r_time (rows df)) 0 + minutes 7.
Proof.
  assert (H1 : 0 <= 1) by lia. assert (H7 : 1 <= 7) by lia.
  pose proof (generate_closed_form Pressure 1 7 (Some 3) demo_world
                eq_refl H7) as E.
  do 2 eexists. split; [exact H1|]. split; [exact H7|]. split; [exact E|].
  exact (proj2 (generate_instants_in_window Pressure 1 7 (Some 3) demo_world
                  _ _ H1 H7 E)).
Defined.

(** ** What a bar chart consumes *)

Lemma world_before_fields c w j :
  working c = true ->
  world_before c j w
  = mkWorld (clock w) (ticks w + j) (np_stream w)
            (np_pos w + j * (match c with Corrosion => 14 | _ => 7 end))
            (py_stream w) (py_pos w).
Proof.
  intros Hc. induction j as [|j IH].
  - cbn [world_before Nat.iter]. destruct w. cbn. f_equal; lia.
  - change (world_before c (S j) w)
      with (world_after c (span 1 10) (world_before c j w)).
    rewrite IH, span_hour_by_ten. unfold world_after.
    cbn [clock ticks np_stream np_pos py_stream py_pos].
    f_equal; destruct c; try discriminate Hc; lia.
Qed.


